(** * mi-supermercado: the catalogue, the cart, the checkout and the Stripe
    webhook of [tienda/views.py] and the actions of [tienda/admin.py], over
    the tables declared in [tienda/models.py].

    The views are embedded as functions over an explicit world (the session
    of the caller, the message store and the database).  Django commits every
    ORM statement as it is issued (autocommit: [views.py] opens no
    [transaction.atomic] block), so an exception keeps the writes made before
    it; the monad below is written accordingly. *)

From Stdlib Require Import ZArith List String Ascii Bool Lia.
From Stdlib Require Import DecimalString DecimalFacts DecimalPos DecimalZ.
From Stdlib Require Import Permutation.
Import ListNotations.

Set Warnings "-register-all".
Local Open Scope Z_scope.

(** ** Python text: [str(int)], [int(str)] *)

Module PyText.

(** A Python [str] is modelled by a Rocq [string] whose characters are the
    code points U+0000..U+00FF. *)

Definition chr (n : nat) : ascii := ascii_of_nat n.
Definition dquote : ascii := chr 34.
Definition backslash : ascii := chr 92.

Definition code (c : ascii) : N := N_of_ascii c.

Definition digit_of_char (c : ascii) : option (Decimal.uint -> Decimal.uint) :=
  match code c with
  | 48%N => Some Decimal.D0
  | 49%N => Some Decimal.D1
  | 50%N => Some Decimal.D2
  | 51%N => Some Decimal.D3
  | 52%N => Some Decimal.D4
  | 53%N => Some Decimal.D5
  | 54%N => Some Decimal.D6
  | 55%N => Some Decimal.D7
  | 56%N => Some Decimal.D8
  | 57%N => Some Decimal.D9
  | _ => None
  end.

Definition is_digit (c : ascii) : bool :=
  match digit_of_char c with Some _ => true | None => false end.

(** The longest run of decimal digits at the head of [s], and what follows. *)
Fixpoint take_digits (s : string) : Decimal.uint * string :=
  match s with
  | String c r =>
      match digit_of_char c with
      | Some d => let (ds, rest) := take_digits r in (d ds, rest)
      | None => (Decimal.Nil, s)
      end
  | EmptyString => (Decimal.Nil, EmptyString)
  end.

(** [str(n)] for an [int]. *)
Definition str_int (z : Z) : string := NilZero.string_of_int (Z.to_int z).

(** The characters that [int()] skips at both ends of a text: the white
    space of ASCII (U+0009..U+000D and the space) and, of the white space
    beyond U+007F, which it turns into a space first, U+0085 and U+00A0.  The
    separators U+001C..U+001F, which [str.strip()] skips, are no white space
    for [int()]. *)
Definition is_space (c : ascii) : bool :=
  let n := code c in
  ((9 <=? n) && (n <=? 13) || (n =? 32) || (n =? 133) || (n =? 160))%N.

Fixpoint lstrip (s : string) : string :=
  match s with
  | String c r => if is_space c then lstrip r else s
  | EmptyString => EmptyString
  end.

Fixpoint rstrip (s : string) : string :=
  match s with
  | String c r =>
      match rstrip r with
      | EmptyString => if is_space c then EmptyString else String c EmptyString
      | r' => String c r'
      end
  | EmptyString => EmptyString
  end.

Definition strip (s : string) : string := rstrip (lstrip s).

(** Digits with single underscores between them, as [int()] accepts them:
    [digit (_? digit)*] up to the end of the text. *)
Fixpoint int_digits (s : string) : option Decimal.uint :=
  match s with
  | String c r =>
      match digit_of_char c with
      | Some d =>
          match r with
          | EmptyString => Some (d Decimal.Nil)
          | String c' r' =>
              if (code c' =? 95)%N
              then match r' with
                   | EmptyString => None
                   | String c'' _ =>
                       if is_digit c''
                       then option_map d (int_digits r')
                       else None
                   end
              else option_map d (int_digits r)
          end
      | None => None
      end
  | EmptyString => None
  end.

(** [int(s)] for a [str]: [None] stands for [ValueError]. *)
Definition int_str (s : string) : option Z :=
  match strip s with
  | String c r =>
      if (code c =? 45)%N then option_map (fun d => Z.opp (Z.of_uint d)) (int_digits r)
      else if (code c =? 43)%N then option_map Z.of_uint (int_digits r)
      else option_map Z.of_uint (int_digits (String c r))
  | EmptyString => None
  end.

(** Vocabulary for the statements about these functions. *)

Fixpoint all_chars (P : ascii -> bool) (s : string) : bool :=
  match s with
  | EmptyString => true
  | String c r => P c && all_chars P r
  end.

(** A text that does not go on with a digit. *)
Definition no_digit_ahead (s : string) : Prop :=
  match s with
  | String c _ => is_digit c = false
  | EmptyString => True
  end.

Definition head_nonzero (d : Decimal.uint) : Prop :=
  match d with
  | Decimal.Nil | Decimal.D0 _ => False
  | _ => True
  end.

End PyText.

(** ** Python values and the [json] module *)

Module Py.
Import PyText.

(** A [float] as [json.loads] reads it: one of [NaN], [Infinity] and
    [-Infinity], or the number of a literal, held by its sign, its digits and
    its decimal exponent.  [float()] rounds that number to the nearest
    binary64; the rounding is not modelled, and nothing in the views computes
    with a [float] read from JSON. *)
Inductive pyfloat :=
| FLiteral (negative : bool) (digits : Decimal.uint) (exponent : Z)
| FNaN
| FInfinity (negative : bool).

(** The values that [json.loads] builds and that a session stores. *)
Inductive value :=
| PyNone
| PyBool (b : bool)
| PyInt (z : Z)
| PyFloat (f : pyfloat)
| PyStr (s : string)
| PyList (l : list value)
| PyDict (d : list (string * value)).

(** A [dict] keeps its keys in insertion order: an association list in which
    a key occurs once. *)
Section Dict.
Context {V : Type}.

Fixpoint dict_get (d : list (string * V)) (k : string) : option V :=
  match d with
  | [] => None
  | (k', v) :: d' => if String.eqb k k' then Some v else dict_get d' k
  end.

Definition dict_mem (d : list (string * V)) (k : string) : bool :=
  match dict_get d k with Some _ => true | None => false end.

(** [d[k] = v]: the value is replaced where the key stands, a new key goes
    to the end. *)
Fixpoint dict_set (d : list (string * V)) (k : string) (v : V) : list (string * V) :=
  match d with
  | [] => [(k, v)]
  | (k', v') :: d' =>
      if String.eqb k k' then (k', v) :: d' else (k', v') :: dict_set d' k v
  end.

(** [del d[k]]. *)
Fixpoint dict_del (d : list (string * V)) (k : string) : list (string * V) :=
  match d with
  | [] => []
  | (k', v') :: d' =>
      if String.eqb k k' then dict_del d' k else (k', v') :: dict_del d' k
  end.

Definition dict_keys (d : list (string * V)) : list string := map fst d.
End Dict.

End Py.

Module Json.
Import PyText Py.

Local Open Scope string_scope.

Definition hex_digit (n : N) : ascii :=
  if (n <? 10)%N then ascii_of_N (48 + n) else ascii_of_N (87 + n).

(** [json.dumps] runs with [ensure_ascii=True]: the quote and the backslash
    get a backslash, the usual control characters their letter, and whatever
    is not between the space and the tilde becomes [\u00xx]. *)
Definition escape_char (c : ascii) : string :=
  let n := code c in
  if (n =? 34)%N then String backslash (String dquote EmptyString)
  else if (n =? 92)%N then String backslash (String backslash EmptyString)
  else if (n =? 10)%N then String backslash "n"
  else if (n =? 13)%N then String backslash "r"
  else if (n =? 9)%N then String backslash "t"
  else if (n =? 8)%N then String backslash "b"
  else if (n =? 12)%N then String backslash "f"
  else if ((32 <=? n) && (n <=? 126))%N then String c EmptyString
  else String backslash
         (String "u" (String "0" (String "0"
           (String (hex_digit (n / 16)) (String (hex_digit (n mod 16)) EmptyString))))).

Fixpoint escape (s : string) : string :=
  match s with
  | EmptyString => EmptyString
  | String c r => escape_char c ++ escape r
  end.

Definition dumps_str (s : string) : string :=
  String dquote (escape s ++ String dquote EmptyString).

Fixpoint join (sep : string) (l : list string) : string :=
  match l with
  | [] => EmptyString
  | [x] => x
  | x :: l' => x ++ sep ++ join sep l'
  end.

(** What [dumps] writes for a [float]: [NaN], [Infinity], [-Infinity], and
    for the number of a literal a literal of that number ([json.dumps] writes
    the [repr] of the binary64, which is not modelled; the views give [dumps]
    carts, and a cart holds no [float]). *)
Definition dumps_float (f : pyfloat) : string :=
  match f with
  | FNaN => "NaN"
  | FInfinity false => "Infinity"
  | FInfinity true => "-Infinity"
  | FLiteral negative digits exponent =>
      (if negative then "-" else EmptyString)
      ++ NilZero.string_of_uint digits ++ "e" ++ str_int exponent
  end.

(** [json.dumps(v)] with the default separators [", "] and [": "]. *)
Fixpoint dumps (v : value) : string :=
  match v with
  | PyNone => "null"
  | PyBool true => "true"
  | PyBool false => "false"
  | PyInt z => str_int z
  | PyFloat f => dumps_float f
  | PyStr s => dumps_str s
  | PyList l => "[" ++ join ", " (map dumps l) ++ "]"
  | PyDict d =>
      "{" ++ join ", " (map (fun kv => dumps_str (fst kv) ++ ": " ++ dumps (snd kv)) d) ++ "}"
  end.

(** *** The decoder *)

Definition is_ws (c : ascii) : bool :=
  let n := code c in ((n =? 32) || (n =? 9) || (n =? 10) || (n =? 13))%N.

Fixpoint skip_ws (s : string) : string :=
  match s with
  | String c r => if is_ws c then skip_ws r else s
  | EmptyString => EmptyString
  end.

Definition hex_value (c : ascii) : option N :=
  let n := code c in
  if ((48 <=? n) && (n <=? 57))%N then Some (n - 48)%N
  else if ((97 <=? n) && (n <=? 102))%N then Some (n - 87)%N
  else if ((65 <=? n) && (n <=? 70))%N then Some (n - 55)%N
  else None.

(** The four hexadecimal digits of a [\u] escape; code points above U+00FF
    are outside the fragment. *)
Definition hex4 (a b c d : ascii) : option ascii :=
  match hex_value a, hex_value b, hex_value c, hex_value d with
  | Some 0%N, Some 0%N, Some x, Some y => Some (ascii_of_N (16 * x + y))
  | _, _, _, _ => None
  end.

Definition unescape (c : ascii) : option ascii :=
  let n := code c in
  if (n =? 34)%N then Some dquote
  else if (n =? 92)%N then Some backslash
  else if (n =? 47)%N then Some "/"%char
  else if (n =? 98)%N then Some (chr 8)
  else if (n =? 102)%N then Some (chr 12)
  else if (n =? 110)%N then Some (chr 10)
  else if (n =? 114)%N then Some (chr 13)
  else if (n =? 116)%N then Some (chr 9)
  else None.

Definition cons_str (c : ascii) (r : option (string * string)) : option (string * string) :=
  match r with
  | Some (s, rest) => Some (String c s, rest)
  | None => None
  end.

(** The text of a string after its opening quote (strict mode: a raw control
    character ends the decoding). *)
Fixpoint scanstring (s : string) : option (string * string) :=
  match s with
  | EmptyString => None
  | String c r =>
      if (code c =? 34)%N then Some (EmptyString, r)
      else if (code c =? 92)%N then
        match r with
        | String e r' =>
            if (code e =? 117)%N then
              match r' with
              | String h1 (String h2 (String h3 (String h4 r''))) =>
                  match hex4 h1 h2 h3 h4 with
                  | Some ch => cons_str ch (scanstring r'')
                  | None => None
                  end
              | _ => None
              end
            else
              match unescape e with
              | Some ch => cons_str ch (scanstring r')
              | None => None
              end
        | EmptyString => None
        end
      else if (code c <? 32)%N then None
      else cons_str c (scanstring r)
  end.

Fixpoint strip_prefix (p s : string) : option string :=
  match p, s with
  | EmptyString, _ => Some s
  | String a p', String b s' => if Ascii.eqb a b then strip_prefix p' s' else None
  | String _ _, EmptyString => None
  end.

Definition starts_float (s : string) : bool :=
  match s with
  | String c _ => ((code c =? 46) || (code c =? 101) || (code c =? 69))%N
  | EmptyString => false
  end.

(** The digits of a JSON number: a lone [0], or a run that starts with a
    nonzero digit. *)
Definition scan_digits (s : string) : option (Decimal.uint * string) :=
  match s with
  | String c r =>
      if (code c =? 48)%N then Some (Decimal.D0 Decimal.Nil, r)
      else match take_digits s with
           | (Decimal.Nil, _) => None
           | (d, rest) => Some (d, rest)
           end
  | EmptyString => None
  end.

(** The fraction of a number, [.] and at least one digit: its digits and
    what follows, or no digit and the text as it is. *)
Definition scan_fraction (s : string) : Decimal.uint * string :=
  match s with
  | String c r =>
      if (code c =? 46)%N
      then match take_digits r with
           | (Decimal.Nil, _) => (Decimal.Nil, s)
           | (d, rest) => (d, rest)
           end
      else (Decimal.Nil, s)
  | EmptyString => (Decimal.Nil, s)
  end.

(** The exponent of a number, [e] or [E], a sign or none, and at least one
    digit: its value and what follows. *)
Definition scan_exponent (s : string) : option (Z * string) :=
  match s with
  | String c r =>
      if ((code c =? 101) || (code c =? 69))%N
      then
        let (negative, r') :=
          match r with
          | String sign r0 =>
              if (code sign =? 45)%N then (true, r0)
              else if (code sign =? 43)%N then (false, r0)
              else (false, r)
          | EmptyString => (false, r)
          end in
        match take_digits r' with
        | (Decimal.Nil, _) => None
        | (d, rest) => Some (if negative then Z.opp (Z.of_uint d) else Z.of_uint d, rest)
        end
      else None
  | EmptyString => None
  end.

(** A number with a fraction or an exponent is a [float]; digits alone are
    an [int], and what follows them is left to the caller. *)
Definition scan_float (negative : bool) (d : Decimal.uint) (z : Z) (rest : string)
  : value * string :=
  let (fd, rest1) := scan_fraction rest in
  match scan_exponent rest1, fd with
  | None, Decimal.Nil => (PyInt z, rest)
  | None, _ =>
      (PyFloat (FLiteral negative (Decimal.app d fd) (- Z.of_nat (Decimal.nb_digits fd))),
       rest1)
  | Some (e, rest2), _ =>
      (PyFloat (FLiteral negative (Decimal.app d fd) (e - Z.of_nat (Decimal.nb_digits fd))),
       rest2)
  end.

Definition scan_number (s : string) : option (value * string) :=
  let signed :=
    match s with
    | String c r =>
        if (code c =? 45)%N
        then option_map (fun dr => (true, fst dr, Z.opp (Z.of_uint (fst dr)), snd dr))
                        (scan_digits r)
        else option_map (fun dr => (false, fst dr, Z.of_uint (fst dr), snd dr))
                        (scan_digits s)
    | EmptyString => None
    end in
  match signed with
  | Some (negative, d, z, rest) =>
      if starts_float rest then Some (scan_float negative d z rest)
      else Some (PyInt z, rest)
  | None => None
  end.

(** [NaN], [Infinity] and [-Infinity], which the decoder accepts where no
    number stands. *)
Definition scan_constant (s : string) : option (value * string) :=
  match strip_prefix "NaN" s with
  | Some rest => Some (PyFloat FNaN, rest)
  | None =>
      match strip_prefix "Infinity" s with
      | Some rest => Some (PyFloat (FInfinity false), rest)
      | None =>
          option_map (fun rest => (PyFloat (FInfinity true), rest))
                     (strip_prefix "-Infinity" s)
      end
  end.

(** [scan_once]: one value at the head of [s].  The fuel bounds the nesting
    and the number of members; the length of the text is always enough. *)
Fixpoint scan_once (fuel : nat) (s : string) {struct fuel} : option (value * string) :=
  match fuel with
  | O => None
  | S fuel' =>
      match s with
      | EmptyString => None
      | String c r =>
          if (code c =? 34)%N then
            match scanstring r with
            | Some (str, rest) => Some (PyStr str, rest)
            | None => None
            end
          else if (code c =? 123)%N then
            match skip_ws r with
            | String c' r' =>
                if (code c' =? 125)%N then Some (PyDict [], r')
                else scan_object fuel' [] (String c' r')
            | EmptyString => None
            end
          else if (code c =? 91)%N then
            match skip_ws r with
            | String c' r' =>
                if (code c' =? 93)%N then Some (PyList [], r')
                else scan_array fuel' [] (String c' r')
            | EmptyString => None
            end
          else if (code c =? 110)%N then
            option_map (fun rest => (PyNone, rest)) (strip_prefix "null" s)
          else if (code c =? 116)%N then
            option_map (fun rest => (PyBool true, rest)) (strip_prefix "true" s)
          else if (code c =? 102)%N then
            option_map (fun rest => (PyBool false, rest)) (strip_prefix "false" s)
          else match scan_number s with
               | Some r => Some r
               | None => scan_constant s
               end
      end
  end

(** The members of an object, from the opening quote of a key on. *)
with scan_object (fuel : nat) (acc : list (string * value)) (s : string)
       {struct fuel} : option (value * string) :=
  match fuel with
  | O => None
  | S fuel' =>
      match s with
      | String c r =>
          if (code c =? 34)%N then
            match scanstring r with
            | Some (key, rest) =>
                match skip_ws rest with
                | String colon rest1 =>
                    if (code colon =? 58)%N then
                      match scan_once fuel' (skip_ws rest1) with
                      | Some (v, rest2) =>
                          let acc' := dict_set acc key v in
                          match skip_ws rest2 with
                          | String sep rest3 =>
                              if (code sep =? 125)%N then Some (PyDict acc', rest3)
                              else if (code sep =? 44)%N
                              then scan_object fuel' acc' (skip_ws rest3)
                              else None
                          | EmptyString => None
                          end
                      | None => None
                      end
                    else None
                | EmptyString => None
                end
            | None => None
            end
          else None
      | EmptyString => None
      end
  end

(** The elements of an array. *)
with scan_array (fuel : nat) (acc : list value) (s : string)
       {struct fuel} : option (value * string) :=
  match fuel with
  | O => None
  | S fuel' =>
      match scan_once fuel' s with
      | Some (v, rest) =>
          match skip_ws rest with
          | String sep rest1 =>
              if (code sep =? 93)%N then Some (PyList (acc ++ [v]), rest1)
              else if (code sep =? 44)%N
              then scan_array fuel' (acc ++ [v]) (skip_ws rest1)
              else None
          | EmptyString => None
          end
      | None => None
      end
  end.

(** [json.loads(s)]: [None] stands for [json.JSONDecodeError]. *)
Definition loads (s : string) : option value :=
  match scan_once (S (String.length s)) (skip_ws s) with
  | Some (v, rest) =>
      match skip_ws rest with
      | EmptyString => Some v
      | String _ _ => None
      end
  | None => None
  end.

(** Vocabulary for the statements about the decoder: what may follow the
    digits of a number that [dumps] wrote, a member of an object as [dumps]
    writes it, and a run of assignments to a [dict]. *)
Definition number_end (s : string) : Prop :=
  no_digit_ahead s /\ starts_float s = false.

Definition member (kv : string * value) : string :=
  dumps_str (fst kv) ++ ": " ++ dumps (snd kv).

Definition set_all (acc entries : list (string * value)) : list (string * value) :=
  fold_left (fun a kv => dict_set a (fst kv) (snd kv)) entries acc.

End Json.

(** ** Exceptions and the monad of a view *)

Inductive Exception :=
| Http404
| ValueError
| KeyError
| TypeError
| AttributeError
| NameError
| OverflowError
| InvalidOperation
| IntegrityError.

(** A computation over a state [S] that either returns or raises.  The state
    that comes out of a raise is the state at the raise: nothing is undone. *)
Definition M (S A : Type) : Type := S -> (Exception + A) * S.

Definition ret {S A} (a : A) : M S A := fun s => (inr a, s).
Definition raise {S A} (e : Exception) : M S A := fun s => (inl e, s).
Definition bind {S A B} (m : M S A) (k : A -> M S B) : M S B :=
  fun s =>
    match m s with
    | (inr a, s') => k a s'
    | (inl e, s') => (inl e, s')
    end.
Definition get {S} : M S S := fun s => (inr s, s).
Definition put {S} (s : S) : M S unit := fun _ => (inr tt, s).
Definition lift_option {S A} (e : Exception) (o : option A) : M S A :=
  match o with Some a => ret a | None => raise e end.
Definition lift_sum {S A} (r : Exception + A) : M S A :=
  match r with inr a => ret a | inl e => raise e end.

Declare Scope view_scope.
Delimit Scope view_scope with view.
Notation "x <- m ;; k" := (bind m (fun x => k))
  (at level 61, m at next level, right associativity) : view_scope.
Notation "m ;;; k" := (bind m (fun _ => k))
  (at level 61, right associativity) : view_scope.

(** A computation that leaves the state as it found it, and one that keeps
    a property of the state, whether it returns or raises. *)
Definition readonly {S A} (m : M S A) : Prop := forall s, snd (m s) = s.
Definition preserves {S A} (P : S -> Prop) (m : M S A) : Prop :=
  forall s, P s -> P (snd (m s)).

(** [[f(x) for x in l]], built by appending in a loop. *)
Fixpoint map_m {S A B} (l : list A) (f : A -> M S B) : M S (list B) :=
  match l with
  | [] => ret []
  | x :: l' => bind (f x) (fun y => bind (map_m l' f) (fun ys => ret (y :: ys)))
  end.

(** ** tienda/models.py: the tables and what the store enforces on them *)

Module Models.
Import PyText Py.
Local Open Scope view_scope.

(** [Pedido.ESTADO_CHOICES]. *)
Inductive Estado := Pendiente | EnPreparacion | Enviado | Entregado | Cancelado.

(** [Producto].  [precio] is a [DecimalField] with two decimal places, kept
    in hundredths; [fecha_ingreso] is a time stamp and is left out. *)
Record Producto := {
  producto_id : Z;
  nombre : string;
  descripcion : string;
  precio : Z;
  stock : Z;
  categoria : option Z;
  imagen : string;
  disponible : bool }.

(** [Pedido]; [usuario] is the key of a [User] row, [total] is in hundredths,
    [fecha_pedido] is left out.  [id_transaccion_pago] is declared
    [CharField(max_length=100, blank=True)]: it carries no [unique=True]. *)
Record Pedido := {
  pedido_id : Z;
  usuario : Z;
  estado : Estado;
  total : Z;
  direccion_envio : string;
  id_transaccion_pago : string }.

(** [DetallePedido], with [unique_together = ('pedido', 'producto')]. *)
Record DetallePedido := {
  detalle_id : Z;
  det_pedido : Z;
  det_producto : Z;
  cantidad : Z;
  precio_unitario : Z }.

(** The database: [django.contrib.auth]'s user table (its keys) and the
    three tables of the application.  The views of the cart and of the
    checkout read the table of the products; no view reaches a statement that
    writes a table. *)
Record DB := {
  auth_user : list Z;
  tienda_producto : list Producto;
  tienda_pedido : list Pedido;
  tienda_detallepedido : list DetallePedido }.

Definition with_producto (db : DB) (l : list Producto) : DB :=
  {| auth_user := auth_user db; tienda_producto := l;
     tienda_pedido := tienda_pedido db;
     tienda_detallepedido := tienda_detallepedido db |}.

Definition with_pedido (db : DB) (l : list Pedido) : DB :=
  {| auth_user := auth_user db; tienda_producto := tienda_producto db;
     tienda_pedido := l;
     tienda_detallepedido := tienda_detallepedido db |}.

(** The key an [AutoField] gives to a new row. *)
Definition next_pk (ids : list Z) : Z := 1 + fold_right Z.max 0 ids.

Definition find_producto (db : DB) (pk : Z) : option Producto :=
  find (fun p => producto_id p =? pk) (tienda_producto db).

Definition has_user (db : DB) (pk : Z) : bool := existsb (Z.eqb pk) (auth_user db).

(** A lookup by [id=<str>] goes through [int()]: a text that is no integer
    raises [ValueError], an integer that is no key raises [Http404]. *)
Definition get_object_or_404_Producto (id : string) : M DB Producto :=
  pk <- lift_option ValueError (int_str id) ;;
  db <- get ;;
  lift_option Http404 (find_producto db pk).

(** [Pedido.objects.create(usuario=, total=, estado=, id_transaccion_pago=)]:
    an INSERT.  [total] is the amount in hundredths; the field, a
    [DecimalField(max_digits=10, decimal_places=2)], refuses an amount of more
    than ten digits when it prepares the value ([decimal.InvalidOperation]).
    The store checks the foreign key to the user; it has no constraint on
    [id_transaccion_pago] to check. *)
Definition Pedido_objects_create (user total : Z) (e : Estado) (tx : string)
  : M DB Pedido :=
  if 10 ^ 10 <=? Z.abs total then raise InvalidOperation
  else
    db <- get ;;
    if has_user db user then
      let p := {| pedido_id := next_pk (map pedido_id (tienda_pedido db));
                  usuario := user; estado := e; total := total;
                  direccion_envio := EmptyString;
                  id_transaccion_pago := tx |} in
      put (with_pedido db (tienda_pedido db ++ [p])) ;;;
      ret p
    else raise IntegrityError.

End Models.

(** ** tienda/views.py *)

Module Views.
Import PyText Py Models.
Local Open Scope view_scope.
Local Open Scope string_scope.
Local Open Scope Z_scope.

(** *** Requests, responses, the session *)

(** A member of the JSON body of a cart request.  Array and object members
    and floating point numbers are outside the fragment. *)
Inductive scalar := SNone | SBool (b : bool) | SInt (z : Z) | SStr (s : string).

(** [str(v)]. *)
Definition str (v : scalar) : string :=
  match v with
  | SNone => "None"
  | SBool true => "True"
  | SBool false => "False"
  | SInt z => str_int z
  | SStr s => s
  end.

(** [int(v)]. *)
Definition int (v : scalar) : Exception + Z :=
  match v with
  | SNone => inl TypeError
  | SBool b => inr (if b then 1 else 0)
  | SInt z => inr z
  | SStr s => match int_str s with Some z => inr z | None => inl ValueError end
  end.

(** [request]: the method, [request.user] ([None] for the anonymous user)
    and [json.loads(request.body)], a JSON object. *)
Record HttpRequest := {
  method : string;
  user : option Z;
  data : list (string * scalar) }.

(** [data.get(k)]. *)
Definition data_get (request : HttpRequest) (k : string) : scalar :=
  match dict_get (data request) k with Some v => v | None => SNone end.

(** The answers of the views.  [Redirect to status] goes to a URL or, as in
    [redirect('vista_carrito')], to the view of that name ([urls.py] is not
    part of the source); [RedirectToLogin] is the answer of [@login_required]
    to the anonymous user. *)
Inductive HttpResponse :=
| Response (status : Z)
| JsonResponse (body : list (string * value)) (status : Z)
| Redirect (to : string) (status : Z)
| RedirectToLogin.

Definition status_code (r : HttpResponse) : Z :=
  match r with
  | Response s | JsonResponse _ s | Redirect _ s => s
  | RedirectToLogin => 302
  end.

(** An entry of the cart, [{'cantidad': n}], and the cart, a [dict] from
    [str(producto_id)] to entries. *)
Record ItemCarrito := { item_cantidad : Z }.
Definition Carrito := list (string * ItemCarrito).

Definition py_of_item (i : ItemCarrito) : value :=
  PyDict [("cantidad", PyInt (item_cantidad i))].
Definition py_entries (c : Carrito) : list (string * value) :=
  map (fun kv => (fst kv, py_of_item (snd kv))) c.
Definition py_of_carrito (c : Carrito) : value := PyDict (py_entries c).

(** [request.session]: the views read and write the key ['carrito'] only. *)
Record Session := { session_carrito : option Carrito }.

Inductive Level := SUCCESS | ERROR.

(** What a view of a browser request works on. *)
Record World := {
  session : Session;
  message_store : list (Level * string);
  db : DB }.

Definition lift_db {A} (m : M DB A) : M World A :=
  fun w =>
    let (r, db') := m (db w) in
    (r, {| session := session w; message_store := message_store w; db := db' |}).

(** [request.session.get('carrito', {})]. *)
Definition session_get_carrito : M World Carrito :=
  w <- get ;;
  ret (match session_carrito (session w) with Some c => c | None => [] end).

(** [request.session['carrito'] = carrito]. *)
Definition session_set_carrito (c : Carrito) : M World unit :=
  w <- get ;;
  put {| session := {| session_carrito := Some c |};
         message_store := message_store w; db := db w |}.

(** [messages.success(request, text)], [messages.error(request, text)]. *)
Definition messages_add (l : Level) (text : string) : M World unit :=
  w <- get ;;
  put {| session := session w;
         message_store := message_store w ++ [(l, text)]; db := db w |}.

(** [@require_POST]. *)
Definition require_POST (view : HttpRequest -> M World HttpResponse)
  : HttpRequest -> M World HttpResponse :=
  fun request =>
    if String.eqb (method request) "POST" then view request
    else ret (Response 405).

(** [@login_required]. *)
Definition login_required (view : HttpRequest -> Z -> M World HttpResponse)
  : HttpRequest -> M World HttpResponse :=
  fun request =>
    match user request with
    | Some uid => view request uid
    | None => ret RedirectToLogin
    end.

(** What Django answers when a view raises: 404 for [Http404], 500 for any
    other exception. *)
Definition get_response {S} (view : M S HttpResponse) (s : S) : HttpResponse * S :=
  match view s with
  | (inr r, s') => (r, s')
  | (inl Http404, s') => (Response 404, s')
  | (inl _, s') => (Response 500, s')
  end.

Definition a_acute : string := String (chr 225) EmptyString.
Definition i_acute : string := String (chr 237) EmptyString.
Definition n_tilde : string := String (chr 241) EmptyString.
Definition quoted (s : string) : string := String dquote (s ++ String dquote EmptyString).

(** *** The cart *)

Definition total_items (c : Carrito) : Z :=
  fold_right (fun kv acc => item_cantidad (snd kv) + acc) 0 c.

Definition agregar_al_carrito : HttpRequest -> M World HttpResponse :=
  require_POST (fun request =>
    let producto_id := str (data_get request "producto_id") in
    producto <- lift_db (get_object_or_404_Producto producto_id) ;;
    carrito <- session_get_carrito ;;
    if stock producto <=? 0
    then ret (JsonResponse [("error", PyStr "Producto sin stock")] 400)
    else
      let updated :=
        match dict_get carrito producto_id with
        | Some item =>
            if stock producto >? item_cantidad item
            then inr (dict_set carrito producto_id
                        {| item_cantidad := item_cantidad item + 1 |})
            else inl (JsonResponse [("error", PyStr "No hay suficiente stock")] 400)
        | None => inr (dict_set carrito producto_id {| item_cantidad := 1 |})
        end in
      match updated with
      | inl response => ret response
      | inr carrito' =>
          session_set_carrito carrito' ;;;
          messages_add SUCCESS
            (quoted (nombre producto) ++ " fue a" ++ n_tilde ++ "adido a tu carrito.") ;;;
          ret (JsonResponse
                 [("mensaje", PyStr (nombre producto ++ " a" ++ n_tilde ++ "adido al carrito."));
                  ("total_items", PyInt (total_items carrito'))] 200)
      end).

Definition actualizar_carrito : HttpRequest -> M World HttpResponse :=
  require_POST (fun request =>
    let producto_id := str (data_get request "producto_id") in
    cantidad <- lift_sum (int (data_get request "cantidad")) ;;
    carrito <- session_get_carrito ;;
    if dict_mem carrito producto_id
    then
      session_set_carrito
        (if cantidad >? 0
         then dict_set carrito producto_id {| item_cantidad := cantidad |}
         else dict_del carrito producto_id) ;;;
      ret (JsonResponse [("mensaje", PyStr "Carrito actualizado.")] 200)
    else
      ret (JsonResponse [("error", PyStr "Producto no encontrado en el carrito")] 404)).

(** *** Stripe *)

Record LineItem := {
  currency : string;
  product_name : string;
  product_images : list string;
  unit_amount : Z;
  quantity : Z }.

(** The arguments of [stripe.checkout.Session.create]. *)
Record SessionParams := {
  payment_method_types : list string;
  line_items : list LineItem;
  mode : string;
  success_url : string;
  cancel_url : string;
  metadata_user_id : Z;
  metadata_carrito : string }.

(** A Checkout Session as Stripe returns and notifies it.  Its metadata are
    texts, whatever was given at creation. *)
Record CheckoutSession := {
  cs_id : string;
  cs_url : string;
  cs_metadata : list (string * string);
  cs_amount_total : Z }.

(** The metadata Stripe keeps for a session created with [params]. *)
Definition stored_metadata (params : SessionParams) : list (string * string) :=
  [("user_id", str_int (metadata_user_id params));
   ("carrito", metadata_carrito params)].

Record Event := {
  event_type : string;
  event_object : CheckoutSession }.

Inductive ConstructError := InvalidPayload | SignatureVerificationError.

(** What the views call outside the repository: the Stripe library, the
    constants of [settings.py], the storage of the uploaded files that the
    settings configure ([storage_url name] is [storage.url(name)]; the storage
    of the file system joins [MEDIA_URL] and the name with the characters that
    a URL does not take percent-encoded) and the URL builder of the request. *)
Record Collaborators := {
  construct_event : string -> option string -> string -> ConstructError + Event;
  STRIPE_WEBHOOK_SECRET : string;
  storage_url : string -> string;
  Session_create : SessionParams -> string + CheckoutSession;
  build_absolute_uri : string -> string }.

Record WebhookRequest := {
  body : string;
  HTTP_STRIPE_SIGNATURE : option string }.

(** [carrito.items()] and [item_data['cantidad']] on decoded JSON. *)
Definition items (v : value) : Exception + list (string * value) :=
  match v with
  | PyDict d => inr d
  | _ => inl AttributeError
  end.

Definition getitem (v : value) (k : string) : Exception + value :=
  match v with
  | PyDict d => match dict_get d k with Some x => inr x | None => inl KeyError end
  | _ => inl TypeError
  end.

Section WithCollaborators.
Variable ext : Collaborators.

(** [producto.imagen.url]: an [ImageField] with no file has no URL
    ([ValueError]); with a file, the URL is the one its storage gives to the
    name of the file. *)
Definition imagen_url (p : Producto) : Exception + string :=
  match imagen p with
  | EmptyString => inl ValueError
  | name => inr (storage_url ext name)
  end.

Definition checkout_params (request : HttpRequest) (uid : Z)
    (carrito : Carrito) (items : list LineItem) : SessionParams :=
  {| payment_method_types := ["card"];
     line_items := items;
     mode := "payment";
     success_url := build_absolute_uri ext "/pedido/exitoso/";
     cancel_url := build_absolute_uri ext "/carrito/";
     metadata_user_id := uid;
     metadata_carrito := Json.dumps (py_of_carrito carrito) |}.

(** [int(producto.precio * 100)] is the price in hundredths.  In
    [redirect(checkout_session.url, code=303)] the keyword [code] goes to the
    URL resolution, which falls back on the URL as it is: the answer is the
    plain redirect, with the status 302. *)
Definition crear_sesion_pago : HttpRequest -> M World HttpResponse :=
  login_required (fun request uid =>
    carrito <- session_get_carrito ;;
    match carrito with
    | [] =>
        messages_add ERROR
          ("Tu carrito est" ++ a_acute ++ " vac" ++ i_acute ++ "o.") ;;;
        ret (Redirect "vista_carrito" 302)
    | _ :: _ =>
        items <- map_m carrito (fun entry =>
                   producto <- lift_db (get_object_or_404_Producto (fst entry)) ;;
                   url <- lift_sum (imagen_url producto) ;;
                   ret {| currency := "usd";
                          product_name := nombre producto;
                          product_images := [build_absolute_uri ext url];
                          unit_amount := precio producto;
                          quantity := item_cantidad (snd entry) |}) ;;
        match Session_create ext (checkout_params request uid carrito items) with
        | inr checkout_session => ret (Redirect (cs_url checkout_session) 302)
        | inl e =>
            messages_add ERROR
              ("Error al conectar con la pasarela de pago: " ++ e) ;;;
            ret (Redirect "vista_carrito" 302)
        end
    end).

(** The webhook.  For a completed session it reads the two entries of the
    metadata and decodes the cart (lines 218 and 219); then, at line 220,
    [get_object_or_404(User, id=user_id)] reads the name [User] to pass it to
    the call.  No import and no statement of [views.py] binds that name (the
    module imports its five models from [.models], and [models.py] imports
    [User] for itself), and it is no built-in: reading it raises [NameError].
    The statements that follow in the branch (the check for an order of the
    same session, the order, its lines and the stock, lines 222 to 247) are
    never reached, and are not embedded. *)
Definition stripe_webhook (request : WebhookRequest) : M DB HttpResponse :=
  match construct_event ext (body request) (HTTP_STRIPE_SIGNATURE request)
          (STRIPE_WEBHOOK_SECRET ext) with
  | inl InvalidPayload => ret (Response 400)
  | inl SignatureVerificationError => ret (Response 400)
  | inr event =>
      if String.eqb (event_type event) "checkout.session.completed" then
        let session := event_object event in
        user_id <- lift_option KeyError (dict_get (cs_metadata session) "user_id") ;;
        blob <- lift_option KeyError (dict_get (cs_metadata session) "carrito") ;;
        carrito <- lift_option ValueError (Json.loads blob) ;;
        raise NameError
      else ret (Response 200)
  end.

End WithCollaborators.

End Views.

(** ** The system: its operations and the vocabulary of its properties *)

Module System.
Import PyText Py Models Views.
Local Open Scope string_scope.
Local Open Scope Z_scope.

(** The requests the properties speak of: the two cart mutations, the
    checkout initiation and the notification of the gateway. *)
Inductive Operation :=
| Agregar (request : HttpRequest)
| Actualizar (request : HttpRequest)
| CrearSesionPago (request : HttpRequest)
| Webhook (request : WebhookRequest).

Definition with_db (w : World) (d : DB) : World :=
  {| session := session w; message_store := message_store w; db := d |}.

(** The webhook request comes from Stripe: it carries no session of the
    shop, and works on the database alone. *)
Definition run (ext : Collaborators) (op : Operation) (w : World)
  : HttpResponse * World :=
  match op with
  | Agregar r => get_response (agregar_al_carrito r) w
  | Actualizar r => get_response (actualizar_carrito r) w
  | CrearSesionPago r => get_response (crear_sesion_pago ext r) w
  | Webhook r =>
      let (response, d) := get_response (stripe_webhook ext r) (db w) in
      (response, with_db w d)
  end.

Definition run_all (ext : Collaborators) (ops : list Operation) (w : World) : World :=
  fold_left (fun w op => snd (run ext op w)) ops w.

(** The cart of the session, and a cart that differs from another at the
    key [k] at most. *)
Definition cart_of (w : World) : Carrito :=
  match session_carrito (session w) with Some c => c | None => [] end.

Definition same_elsewhere (c c' : Carrito) (k : string) : Prop :=
  forall k', k' <> k -> dict_get c' k' = dict_get c k'.

(** The world after [agregar_al_carrito] stored the cart [c'] and told the
    user that the product [p] was added. *)
Definition added (w : World) (p : Producto) (c' : Carrito) : World :=
  {| session := {| session_carrito := Some c' |};
     message_store :=
       (message_store w ++
        [(SUCCESS,
          (quoted (nombre p) ++ " fue a" ++ n_tilde ++ "adido a tu carrito.")%string)])%list;
     db := db w |}.

(** The world after a view told the user of an error. *)
Definition told (w : World) (text : string) : World :=
  {| session := session w;
     message_store := (message_store w ++ [(ERROR, text)])%list;
     db := db w |}.

(** The entry names a row of the catalogue that has an image. *)
Definition sellable (d : DB) (entry : string * ItemCarrito) : Prop :=
  exists p, int_str (fst entry) = Some (producto_id p)
            /\ find_producto d (producto_id p) = Some p
            /\ imagen p <> EmptyString.

Definition stock_nonneg (d : DB) : Prop :=
  Forall (fun p => 0 <= stock p) (tienda_producto d).

Definition tx_ids (d : DB) : list string :=
  map id_transaccion_pago (tienda_pedido d).

(** No two orders carry the same [id_transaccion_pago]. *)
Definition unique_tx (d : DB) : Prop := NoDup (tx_ids d).

Definition has_tx (d : DB) (tx : string) : bool :=
  existsb (fun p => String.eqb (id_transaccion_pago p) tx) (tienda_pedido d).

(** [request] is a notification that passes the verification and carries
    the completed Checkout Session [cs]. *)
Definition completed (ext : Collaborators) (request : WebhookRequest)
    (cs : CheckoutSession) : Prop :=
  construct_event ext (body request) (HTTP_STRIPE_SIGNATURE request)
    (STRIPE_WEBHOOK_SECRET ext)
  = inr {| event_type := "checkout.session.completed"; event_object := cs |}.

(** The metadata of [cs] decode to the user key [uid] and the cart
    [carrito]. *)
Definition decodes (cs : CheckoutSession) (uid : Z) (carrito : value) : Prop :=
  exists u blob,
    dict_get (cs_metadata cs) "user_id" = Some u /\ int_str u = Some uid /\
    dict_get (cs_metadata cs) "carrito" = Some blob /\
    Json.loads blob = Some carrito.

End System.

(** ** A small shop, for the examples *)

Module Shop.
Import PyText Py Models Views System.
Local Open Scope string_scope.
Local Open Scope Z_scope.

Definition producto_a : Producto :=
  {| producto_id := 1; nombre := "A"; descripcion := EmptyString; precio := 1000;
     stock := 5; categoria := None; imagen := "productos/default.png";
     disponible := true |}.

Definition producto_b : Producto :=
  {| producto_id := 2; nombre := "B"; descripcion := EmptyString; precio := 2000;
     stock := 3; categoria := None; imagen := "productos/default.png";
     disponible := true |}.

(** One user, two products, no order yet. *)
Definition tienda : DB :=
  {| auth_user := [7];
     tienda_producto := [producto_a; producto_b];
     tienda_pedido := [];
     tienda_detallepedido := [] |}.

Definition item (n : Z) : ItemCarrito := {| item_cantidad := n |}.

(** The cart {A: 2, B: 1}. *)
Definition carrito_ab : Carrito := [("1", item 2); ("2", item 1)].

(** A completed session as Stripe notifies it. *)
Definition sesion (id user_id : string) (carrito : value) (amount : Z) : CheckoutSession :=
  {| cs_id := id; cs_url := "https://checkout.stripe.com/pay/" ++ id;
     cs_metadata := [("user_id", user_id); ("carrito", Json.dumps carrito)];
     cs_amount_total := amount |}.

(** Collaborators for which every notification verifies and carries [cs],
    and the gateway answers [gateway].  The storage answers [/media/] and the
    name, as the storage of the file system does for a name that needs no
    encoding. *)
Definition collaborators (cs : CheckoutSession)
    (gateway : SessionParams -> string + CheckoutSession) : Collaborators :=
  {| construct_event := fun _ _ _ =>
       inr {| event_type := "checkout.session.completed"; event_object := cs |};
     STRIPE_WEBHOOK_SECRET := "whsec_test";
     storage_url := fun name => "/media/" ++ name;
     Session_create := gateway;
     build_absolute_uri := fun path => "https://tienda.test" ++ path |}.

Definition gateway_up (params : SessionParams) : string + CheckoutSession :=
  inr {| cs_id := "cs_test_1"; cs_url := "https://checkout.stripe.com/pay/cs_test_1";
         cs_metadata := stored_metadata params; cs_amount_total := 4000 |}.

Definition gateway_down (params : SessionParams) : string + CheckoutSession :=
  inl "Connection refused".

Definition notification : WebhookRequest :=
  {| body := "{}"; HTTP_STRIPE_SIGNATURE := Some "t=1,v1=0" |}.

(** The notification of the cart {A: 2, B: 1} paid by the user 7. *)
Definition cs_ab : CheckoutSession := sesion "cs_test_1" "7" (py_of_carrito carrito_ab) 4000.

(** The same session id, with metadata that name a user who does not exist. *)
Definition cs_stranger : CheckoutSession :=
  sesion "cs_test_1" "8" (py_of_carrito carrito_ab) 4000.

(** A cart whose second entry names no product. *)
Definition cs_vanished : CheckoutSession :=
  sesion "cs_test_2" "7" (py_of_carrito [("1", item 2); ("9", item 1)]) 4000.

(** A cart that asks for more than the stock. *)
Definition cs_over : CheckoutSession :=
  sesion "cs_test_3" "7" (py_of_carrito [("1", item 6)]) 6000.

(** The shop with an order for the session [cs_ab] in its tables: the
    order, its two lines and the stock of the two products as lines 227 to
    247 of [views.py] are written to leave them. *)
Definition tienda_ab : DB :=
  {| auth_user := [7];
     tienda_producto :=
       [{| producto_id := 1; nombre := "A"; descripcion := EmptyString;
           precio := 1000; stock := 3; categoria := None;
           imagen := "productos/default.png"; disponible := true |};
        {| producto_id := 2; nombre := "B"; descripcion := EmptyString;
           precio := 2000; stock := 2; categoria := None;
           imagen := "productos/default.png"; disponible := true |}];
     tienda_pedido :=
       [{| pedido_id := 1; usuario := 7; estado := EnPreparacion; total := 4000;
           direccion_envio := EmptyString; id_transaccion_pago := "cs_test_1" |}];
     tienda_detallepedido :=
       [{| detalle_id := 1; det_pedido := 1; det_producto := 1; cantidad := 2;
           precio_unitario := 1000 |};
        {| detalle_id := 2; det_pedido := 1; det_producto := 2; cantidad := 1;
           precio_unitario := 2000 |}] |}.

Definition mundo (c : option Carrito) (d : DB) : World :=
  {| session := {| session_carrito := c |}; message_store := []; db := d |}.

Definition post (user : option Z) (producto_id cantidad : scalar) : HttpRequest :=
  {| method := "POST"; user := user;
     data := [("producto_id", producto_id); ("cantidad", cantidad)] |}.

End Shop.

(** ** The cart through a session *)

Module CartLife.
Import PyText Py Models Views System.
Local Open Scope Z_scope.

(** The key names a product of the catalogue. *)
Definition names_product (d : DB) (k : string) : Prop :=
  exists pk, int_str k = Some pk /\ In pk (map producto_id (tienda_producto d)).

(** The cart has no key twice, every quantity is at least 1, and every key
    names a product of the catalogue. *)
Definition cart_ok (w : World) : Prop :=
  NoDup (dict_keys (cart_of w))
  /\ Forall (fun kv => names_product (db w) (fst kv) /\ 1 <= item_cantidad (snd kv))
            (cart_of w).

(** The same request to [agregar_al_carrito], [n] times over. *)
Definition agregar_veces (n : nat) (request : HttpRequest) (w : World) : World :=
  Nat.iter n (fun w' => snd (get_response (agregar_al_carrito request) w')) w.

(** The world with the cart [c] in its session. *)
Definition with_cart (w : World) (c : Carrito) : World :=
  {| session := {| session_carrito := Some c |};
     message_store := message_store w; db := db w |}.

End CartLife.

(** ** The checkout, from the cart to the gateway *)

Module Checkout.
Import PyText Py Models Views System.
Local Open Scope string_scope.
Local Open Scope Z_scope.
Local Open Scope view_scope.

Section WithCollaborators.
Variable ext : Collaborators.

(** The body of the loop of [crear_sesion_pago]: the line item of one entry
    of the cart. *)
Definition build_line_item (entry : string * ItemCarrito) : M World LineItem :=
  producto <- lift_db (get_object_or_404_Producto (fst entry)) ;;
  url <- lift_sum (imagen_url ext producto) ;;
  ret {| currency := "usd";
         product_name := nombre producto;
         product_images := [build_absolute_uri ext url];
         unit_amount := precio producto;
         quantity := item_cantidad (snd entry) |}.

(** The line item of the entry [entry] of the row [p]. *)
Definition line_item (p : Producto) (entry : string * ItemCarrito) : LineItem :=
  {| currency := "usd";
     product_name := nombre p;
     product_images := [build_absolute_uri ext (storage_url ext (imagen p))];
     unit_amount := precio p;
     quantity := item_cantidad (snd entry) |}.

(** [li] is the line item of [entry], which names a row of the catalogue
    that has an image. *)
Definition priced (d : DB) (entry : string * ItemCarrito) (li : LineItem) : Prop :=
  exists p, int_str (fst entry) = Some (producto_id p)
            /\ find_producto d (producto_id p) = Some p
            /\ imagen p <> EmptyString
            /\ li = line_item p entry.

(** The status of the fault of [crear_sesion_pago] on an entry that is not
    sellable: 404 for a key that is an integer and names no row, 500 for a key
    that is no integer and for a row without an image. *)
Definition fault_status (d : DB) (entry : string * ItemCarrito) : Z :=
  match int_str (fst entry) with
  | Some pk => match find_producto d pk with None => 404 | Some _ => 500 end
  | None => 500
  end.

End WithCollaborators.

End Checkout.

(** ** tienda/views.py: the cart page *)

Module CartPage.
Import PyText Py Models Views System.
Local Open Scope string_scope.
Local Open Scope Z_scope.
Local Open Scope view_scope.

(** The arithmetic of [decimal.Decimal] and of [float] in the Python that
    runs the views.  What an operation computes, and whether it raises (a
    [Decimal] beyond the exponents of the context, an [int] too large for a
    [float]), is left to the runtime; which operation is applied to which
    operands is not, see [py_mul] and [py_add].  [Decimal_of_field] is the
    [Decimal] that a [DecimalField] of two places holds for a value in
    hundredths, [Decimal_of_int] the conversion of an [int] operand,
    [float_0_19] the literal [0.19]. *)
Record Arithmetic := {
  decimal : Type;
  float : Type;
  Decimal_of_field : Z -> decimal;
  Decimal_of_int : Z -> decimal;
  decimal_mul : decimal -> decimal -> Exception + decimal;
  decimal_add : decimal -> decimal -> Exception + decimal;
  float_of_int : Z -> Exception + float;
  float_mul : float -> float -> float;
  float_add : float -> float -> float;
  float_0_19 : float }.

Section WithArithmetic.
Variable py : Arithmetic.
Variable STRIPE_PUBLIC_KEY : string.

(** The numbers of the view: [int], [Decimal] and [float]. *)
Inductive number :=
| NInt (z : Z)
| NDecimal (d : decimal py)
| NFloat (f : float py).

(** [a * b].  An [int] operand is converted to the type of the other one
    (for a [Decimal] on the right the reflected method runs, with the
    [Decimal] first); a [Decimal] and a [float] have no product:
    [TypeError]. *)
Definition py_mul (a b : number) : Exception + number :=
  match a, b with
  | NInt x, NInt y => inr (NInt (x * y))
  | NInt x, NDecimal d =>
      match decimal_mul py d (Decimal_of_int py x) with
      | inr r => inr (NDecimal r) | inl e => inl e
      end
  | NDecimal d, NInt y =>
      match decimal_mul py d (Decimal_of_int py y) with
      | inr r => inr (NDecimal r) | inl e => inl e
      end
  | NDecimal d, NDecimal d' =>
      match decimal_mul py d d' with
      | inr r => inr (NDecimal r) | inl e => inl e
      end
  | NInt x, NFloat f =>
      match float_of_int py x with
      | inr fx => inr (NFloat (float_mul py fx f)) | inl e => inl e
      end
  | NFloat f, NInt y =>
      match float_of_int py y with
      | inr fy => inr (NFloat (float_mul py f fy)) | inl e => inl e
      end
  | NFloat f, NFloat f' => inr (NFloat (float_mul py f f'))
  | NDecimal _, NFloat _ => inl TypeError
  | NFloat _, NDecimal _ => inl TypeError
  end.

(** [a + b], with the same conversions. *)
Definition py_add (a b : number) : Exception + number :=
  match a, b with
  | NInt x, NInt y => inr (NInt (x + y))
  | NInt x, NDecimal d =>
      match decimal_add py d (Decimal_of_int py x) with
      | inr r => inr (NDecimal r) | inl e => inl e
      end
  | NDecimal d, NInt y =>
      match decimal_add py d (Decimal_of_int py y) with
      | inr r => inr (NDecimal r) | inl e => inl e
      end
  | NDecimal d, NDecimal d' =>
      match decimal_add py d d' with
      | inr r => inr (NDecimal r) | inl e => inl e
      end
  | NInt x, NFloat f =>
      match float_of_int py x with
      | inr fx => inr (NFloat (float_add py fx f)) | inl e => inl e
      end
  | NFloat f, NInt y =>
      match float_of_int py y with
      | inr fy => inr (NFloat (float_add py f fy)) | inl e => inl e
      end
  | NFloat f, NFloat f' => inr (NFloat (float_add py f f'))
  | NDecimal _, NFloat _ => inl TypeError
  | NFloat _, NDecimal _ => inl TypeError
  end.

(** An element of [items_carrito], and the context of the template. *)
Record ItemVista := {
  iv_producto : Producto;
  iv_cantidad : Z;
  iv_total_item : number }.

Record Contexto := {
  items_carrito : list ItemVista;
  subtotal_carrito : number;
  impuesto : number;
  total_final : number;
  stripe_public_key : string }.

(** [render(request, template, context)], before the template is applied. *)
Inductive Page := Render (template : string) (context : Contexto).

(** The loop over [carrito.items()], from the values [items_carrito] and
    [subtotal_carrito] have before a turn.  [producto.precio] is the
    [Decimal] of the field. *)
Fixpoint vista_carrito_loop (carrito : Carrito) (items : list ItemVista)
    (subtotal : number) : M World (list ItemVista * number) :=
  match carrito with
  | [] => ret (items, subtotal)
  | entry :: carrito' =>
      producto <- lift_db (get_object_or_404_Producto (fst entry)) ;;
      total_item <- lift_sum (py_mul (NDecimal (Decimal_of_field py (precio producto)))
                                     (NInt (item_cantidad (snd entry)))) ;;
      subtotal' <- lift_sum (py_add subtotal total_item) ;;
      vista_carrito_loop carrito'
        (items ++ [{| iv_producto := producto;
                      iv_cantidad := item_cantidad (snd entry);
                      iv_total_item := total_item |}])%list
        subtotal'
  end.

Definition vista_carrito (request : HttpRequest) : M World Page :=
  carrito <- session_get_carrito ;;
  looped <- vista_carrito_loop carrito [] (NInt 0) ;;
  impuesto <- lift_sum (py_mul (snd looped) (NFloat (float_0_19 py))) ;;
  total_final <- lift_sum (py_add (snd looped) impuesto) ;;
  ret (Render "tienda/carrito.html"
         {| items_carrito := fst looped;
            subtotal_carrito := snd looped;
            impuesto := impuesto;
            total_final := total_final;
            stripe_public_key := STRIPE_PUBLIC_KEY |}).

End WithArithmetic.

Arguments NInt {py} z.
Arguments NDecimal {py} d.
Arguments NFloat {py} f.

(** The arithmetic never raises. *)
Definition arithmetic_total (py : Arithmetic) : Prop :=
  (forall a b, exists r, decimal_mul py a b = inr r)
  /\ (forall a b, exists r, decimal_add py a b = inr r)
  /\ (forall z, exists f, float_of_int py z = inr f).

(** An arithmetic for the examples: a [Decimal] as its value in hundredths,
    a [float] as a fraction. *)
Definition exact_arithmetic : Arithmetic :=
  {| decimal := Z;
     float := Z * Z;
     Decimal_of_field := fun h => h;
     Decimal_of_int := fun z => 100 * z;
     decimal_mul := fun a b => inr (a * b / 100);
     decimal_add := fun a b => inr (a + b);
     float_of_int := fun z => inr (z, 1);
     float_mul := fun a b => (fst a * fst b, snd a * snd b);
     float_add := fun a b => (fst a * snd b + fst b * snd a, snd a * snd b);
     float_0_19 := (19, 100) |}.

(** The entry names a row of the catalogue. *)
Definition listed (d : DB) (entry : string * ItemCarrito) : Prop :=
  exists p, int_str (fst entry) = Some (producto_id p)
            /\ find_producto d (producto_id p) = Some p.

End CartPage.

(** ** tienda/views.py and tienda/admin.py: the catalogue and the actions
    of the administrator on the products *)

Module Site.
Import PyText Py Models Views System.
Local Open Scope string_scope.
Local Open Scope Z_scope.
Local Open Scope view_scope.

Record Categoria := {
  categoria_id : Z;
  categoria_nombre : string;
  categoria_descripcion : string }.

Record DisenoPersonalizado := {
  diseno_id : Z;
  color_primario : string;
  fuente_principal : string;
  logo : option string;
  banner_principal : option string }.

(** The tables of the shop together with the two that the cart and the
    checkout do not read. *)
Record Tables := {
  store : DB;
  tienda_categoria : list Categoria;
  tienda_disenopersonalizado : list DisenoPersonalizado }.

(** What the database decides: the order in which it returns the rows of a
    query ([Producto] has [ordering = ['nombre']], [Categoria] has no
    ordering), which is some arrangement of the rows selected; the match of
    [icontains] under its collation; and what it raises when a query compares
    the key column of the categories with an integer beyond the range of the
    column ([out_of_range pk] is [None] for a key it can compare; SQLite
    raises [OverflowError] for an integer of more than 64 bits). *)
Record Database := {
  order_by_nombre : list Producto -> list Producto;
  order_by_nombre_permutes : forall l, Permutation (order_by_nombre l) l;
  unordered : list Categoria -> list Categoria;
  unordered_permutes : forall l, Permutation (unordered l) l;
  icontains : string -> string -> bool;
  out_of_range : Z -> option Exception }.

(** [request.GET]: the pairs of the query string.  [get] answers the last
    value of a key. *)
Definition QueryDict := list (string * string).

Fixpoint QueryDict_get (q : QueryDict) (k : string) : option string :=
  match q with
  | [] => None
  | (k', v) :: q' =>
      match QueryDict_get q' k with
      | Some v' => Some v'
      | None => if String.eqb k k' then Some v else None
      end
  end.

(** [if v:] for a text or [None]. *)
Definition truthy (v : option string) : bool :=
  match v with
  | None => false
  | Some EmptyString => false
  | Some _ => true
  end.

(** [objects.first()] on a query without an order: the row of the least
    key, [None] for the empty table. *)
Definition objects_first (l : list DisenoPersonalizado) : option DisenoPersonalizado :=
  fold_right (fun x acc =>
                match acc with
                | Some y => if diseno_id x <=? diseno_id y then Some x else Some y
                | None => Some x
                end) None l.

(** A page: the template and its context. *)
Inductive Answer (C : Type) :=
| Page (template : string) (context : C).
Arguments Page {C} template context.

Record ContextoCatalogo := {
  productos : list Producto;
  categorias : list Categoria;
  diseno : option DisenoPersonalizado;
  selected_categoria : option Z }.

Section WithDatabase.
Variable dbms : Database.

(** Modelled from the spec: the template [tienda/catalogo.html] is not part
    of the source.  The catalogue page lists the available products (section
    4.4), so [render], which applies the template within the view, runs the
    query of [productos]; the database refuses it when the key of the category
    is beyond the range of the column. *)
Definition render_catalogo (selected : option Z) : M Tables unit :=
  match selected with
  | Some pk =>
      match out_of_range dbms pk with
      | Some e => raise e
      | None => ret tt
      end
  | None => ret tt
  end.

(** A lookup on [categoria_id] with a text goes through [int()], as the one
    on [id] does; [int(categoria_id)] for the context does the same again. *)
Definition catalogo (GET : QueryDict) : M Tables (Answer ContextoCatalogo) :=
  t <- get ;;
  let diseno := objects_first (tienda_disenopersonalizado t) in
  let query := QueryDict_get GET "q" in
  let categoria_id := QueryDict_get GET "categoria" in
  let by_name :=
    if truthy query
    then (fun p => icontains dbms (nombre p)
                     (match query with Some q => q | None => EmptyString end))
    else (fun _ => true) in
  by_category <-
    (if truthy categoria_id
     then pk <- lift_option ValueError
                  (int_str (match categoria_id with Some c => c | None => EmptyString end)) ;;
          ret (fun p => match categoria p with
                        | Some c => c =? pk
                        | None => false
                        end)
     else ret (fun _ => true)) ;;
  selected <-
    (if truthy categoria_id
     then pk <- lift_option ValueError
                  (int_str (match categoria_id with Some c => c | None => EmptyString end)) ;;
          ret (Some pk)
     else ret None) ;;
  render_catalogo selected ;;;
  ret (Page "tienda/catalogo.html"
         {| productos :=
              order_by_nombre dbms
                (filter (fun p => disponible p && by_name p && by_category p)
                        (tienda_producto (store t)));
            categorias := unordered dbms (tienda_categoria t);
            diseno := diseno;
            selected_categoria := selected |}).

End WithDatabase.

(** *** tienda/admin.py *)

(** A queryset of products: the rows of the table that it selects. *)
Definition QuerySet := Producto -> bool.

Definition set_disponible (p : Producto) (b : bool) : Producto :=
  {| producto_id := producto_id p; nombre := nombre p;
     descripcion := descripcion p; precio := precio p; stock := stock p;
     categoria := categoria p; imagen := imagen p;
     disponible := b |}.

(** [queryset.update(disponible=b)]: what it makes of a row, and the
    UPDATE, which answers the number of the rows selected. *)
Definition update_row (queryset : QuerySet) (b : bool) (p : Producto) : Producto :=
  if queryset p then set_disponible p b else p.

Definition update_disponible (queryset : QuerySet) (b : bool) : M DB Z :=
  d <- get ;;
  put (with_producto d (map (update_row queryset b) (tienda_producto d))) ;;;
  ret (Z.of_nat (List.length (filter queryset (tienda_producto d)))).

Definition marcar_como_disponible (queryset : QuerySet) : M DB unit :=
  update_disponible queryset true ;;; ret tt.

Definition marcar_como_no_disponible (queryset : QuerySet) : M DB unit :=
  update_disponible queryset false ;;; ret tt.

(** [DisenoPersonalizadoAdmin.has_add_permission]. *)
Definition has_add_permission (t : Tables) : bool :=
  Z.of_nat (List.length (tienda_disenopersonalizado t)) =? 0.

(** The tables with another store. *)
Definition with_store (t : Tables) (d : DB) : Tables :=
  {| store := d; tienda_categoria := tienda_categoria t;
     tienda_disenopersonalizado := tienda_disenopersonalizado t |}.

(** The store and the world after [queryset.update(disponible=b)]. *)
Definition updated (queryset : QuerySet) (b : bool) (d : DB) : DB :=
  snd (update_disponible queryset b d).

Definition updated_world (queryset : QuerySet) (b : bool) (w : World) : World :=
  with_db w (updated queryset b (db w)).

(** The queryset selects the rows by their key, as the selection of the
    change list of the administrator does. *)
Definition by_key (queryset : QuerySet) : Prop :=
  forall p p', producto_id p = producto_id p' -> queryset p = queryset p'.

(** Two runs, one from a state [s] and one from the state [g s], go the same
    way: they raise the same exception or return values that [R] relates, and
    leave states that [g] relates. *)
Definition sim {S A} (g : S -> S) (R : A -> A -> Prop) (m1 m2 : M S A) : Prop :=
  forall s,
    match m1 s, m2 (g s) with
    | (inl e1, s1), (inl e2, s2) => e1 = e2 /\ s2 = g s1
    | (inr a1, s1), (inr a2, s2) => R a1 a2 /\ s2 = g s1
    | _, _ => False
    end.

(** A database for the examples: the rows in the order of the table, and the
    match of [icontains] on the text as it is. *)
Fixpoint prefix (a b : string) : bool :=
  match a, b with
  | EmptyString, _ => true
  | String x a', String y b' => Ascii.eqb x y && prefix a' b'
  | _, EmptyString => false
  end.

Fixpoint contains (s t : string) : bool :=
  prefix t s || match s with
                | EmptyString => false
                | String _ s' => contains s' t
                end.

Definition plain_database : Database :=
  {| order_by_nombre := fun l => l;
     order_by_nombre_permutes := fun l => Permutation_refl l;
     unordered := fun l => l;
     unordered_permutes := fun l => Permutation_refl l;
     icontains := contains;
     out_of_range := fun pk =>
       if (- 2 ^ 63 <=? pk) && (pk <? 2 ^ 63) then None else Some OverflowError |}.

End Site.

(** * Proofs *)

(** ** Decimal text *)

Section TextFacts.
Import PyText.
Local Open Scope string_scope.

Lemma append_assoc (a b c : string) : (a ++ b) ++ c = a ++ (b ++ c).
Proof. induction a as [|x a IH]; simpl; [reflexivity | now rewrite IH]. Qed.

Lemma append_nil_r (a : string) : a ++ EmptyString = a.
Proof. induction a as [|x a IH]; simpl; [reflexivity | now rewrite IH]. Qed.

Lemma length_append (a b : string) :
  String.length (a ++ b) = (String.length a + String.length b)%nat.
Proof. induction a as [|x a IH]; simpl; [reflexivity | now rewrite IH]. Qed.

Lemma take_digits_string_of_uint (d : Decimal.uint) (rest : string) :
  no_digit_ahead rest ->
  take_digits (NilEmpty.string_of_uint d ++ rest) = (d, rest).
Proof.
  intros Hrest.
  induction d as [|d IH|d IH|d IH|d IH|d IH|d IH|d IH|d IH|d IH|d IH];
    simpl; try (rewrite IH; reflexivity).
  destruct rest as [|c r]; [reflexivity|].
  simpl in *. unfold is_digit in Hrest.
  destruct (digit_of_char c); [discriminate | reflexivity].
Qed.

Lemma to_uint_unorm (p : positive) :
  Decimal.unorm (Pos.to_uint p) = Pos.to_uint p.
Proof.
  rewrite <- (DecimalPos.Unsigned.to_of (Pos.to_uint p)).
  now rewrite DecimalPos.Unsigned.of_to.
Qed.

Lemma to_uint_head_nonzero (p : positive) : head_nonzero (Pos.to_uint p).
Proof.
  pose proof (to_uint_unorm p) as Hn.
  pose proof (DecimalPos.Unsigned.to_uint_nonzero p) as Hz.
  pose proof (DecimalPos.Unsigned.to_uint_nonnil p) as Hnil.
  destruct (Pos.to_uint p) as [|u|u|u|u|u|u|u|u|u|u]; simpl; auto.
  rewrite DecimalFacts.unorm_D0 in Hn.
  destruct u as [|u|u|u|u|u|u|u|u|u|u];
    try (exfalso; apply Hz; reflexivity);
    match type of Hn with
    | Decimal.unorm ?v = _ =>
        assert (Hv : v <> Decimal.Nil) by discriminate;
        pose proof (DecimalFacts.nb_digits_unorm v Hv) as Hle;
        rewrite Hn in Hle; simpl in Hle; lia
    end.
Qed.

(** The digits [str(z)] is made of. *)
Lemma str_int_pos (p : positive) :
  str_int (Z.pos p) = NilEmpty.string_of_uint (Pos.to_uint p).
Proof.
  unfold str_int; simpl. unfold NilZero.string_of_uint.
  pose proof (DecimalPos.Unsigned.to_uint_nonnil p).
  destruct (Pos.to_uint p); congruence.
Qed.

Lemma str_int_neg (p : positive) :
  str_int (Z.neg p) = String "-" (NilEmpty.string_of_uint (Pos.to_uint p)).
Proof.
  unfold str_int; simpl. unfold NilZero.string_of_uint.
  pose proof (DecimalPos.Unsigned.to_uint_nonnil p).
  destruct (Pos.to_uint p); congruence.
Qed.

Lemma of_uint_to_uint (p : positive) : Z.of_uint (Pos.to_uint p) = Z.pos p.
Proof.
  unfold Z.of_uint. now rewrite DecimalPos.Unsigned.of_to.
Qed.

End TextFacts.

Section NumberFacts.
Import PyText Py Json.
Local Open Scope string_scope.

Lemma digits_string_of_uint (d : Decimal.uint) :
  all_chars is_digit (NilEmpty.string_of_uint d) = true.
Proof. induction d; simpl; auto. Qed.

Lemma digit_not_space (c : ascii) : is_digit c = true -> is_space c = false.
Proof.
  destruct c as [[] [] [] [] [] [] [] []]; vm_compute; congruence.
Qed.

Lemma rstrip_no_space (s : string) :
  all_chars (fun c => negb (is_space c)) s = true -> rstrip s = s.
Proof.
  induction s as [|c r IH]; simpl; [reflexivity|].
  intros H; apply andb_prop in H; destruct H as [Hc Hr].
  rewrite (IH Hr). apply negb_true_iff in Hc. rewrite Hc.
  destruct r; reflexivity.
Qed.

Lemma all_chars_impl (P Q : ascii -> bool) (s : string) :
  (forall c, P c = true -> Q c = true) ->
  all_chars P s = true -> all_chars Q s = true.
Proof.
  intros HPQ; induction s as [|c r IH]; simpl; [reflexivity|].
  intros H; apply andb_prop in H; destruct H as [Hc Hr].
  rewrite (HPQ _ Hc), (IH Hr); reflexivity.
Qed.

Lemma strip_digits (d : Decimal.uint) :
  strip (NilEmpty.string_of_uint d) = NilEmpty.string_of_uint d.
Proof.
  unfold strip.
  assert (Hl : lstrip (NilEmpty.string_of_uint d) = NilEmpty.string_of_uint d)
    by (destruct d; reflexivity).
  rewrite Hl. apply rstrip_no_space.
  apply all_chars_impl with (P := is_digit); [|apply digits_string_of_uint].
  intros c Hc; now rewrite (digit_not_space c Hc).
Qed.

Lemma int_digits_string_of_uint (d : Decimal.uint) :
  d <> Decimal.Nil -> int_digits (NilEmpty.string_of_uint d) = Some d.
Proof.
  induction d as [|d IH|d IH|d IH|d IH|d IH|d IH|d IH|d IH|d IH|d IH];
    intros Hd; [congruence|..];
    (destruct d as [|u|u|u|u|u|u|u|u|u|u]; [reflexivity|..];
     match goal with
     | |- int_digits (NilEmpty.string_of_uint (?D ?v)) = _ =>
         change (option_map D (int_digits (NilEmpty.string_of_uint v)) = Some (D v));
         rewrite IH by discriminate; reflexivity
     end).
Qed.

Lemma int_str_digits (d : Decimal.uint) :
  d <> Decimal.Nil -> int_str (NilEmpty.string_of_uint d) = Some (Z.of_uint d).
Proof.
  intros Hd. unfold int_str. rewrite strip_digits.
  transitivity (option_map Z.of_uint (int_digits (NilEmpty.string_of_uint d))).
  - destruct d; [congruence | reflexivity ..].
  - now rewrite int_digits_string_of_uint.
Qed.

(** [int(str(z))] is [z]. *)
Lemma int_str_str_int (z : Z) : int_str (str_int z) = Some z.
Proof.
  destruct z as [|p|p].
  - reflexivity.
  - rewrite str_int_pos, int_str_digits, of_uint_to_uint;
      [reflexivity | apply DecimalPos.Unsigned.to_uint_nonnil].
  - rewrite str_int_neg. unfold int_str, strip.
    change (lstrip (String "-" (NilEmpty.string_of_uint (Pos.to_uint p))))
      with (String "-" (NilEmpty.string_of_uint (Pos.to_uint p))).
    rewrite rstrip_no_space.
    + change (option_map (fun d => Z.opp (Z.of_uint d))
                (int_digits (NilEmpty.string_of_uint (Pos.to_uint p)))
              = Some (Z.neg p)).
      rewrite int_digits_string_of_uint
        by apply DecimalPos.Unsigned.to_uint_nonnil.
      simpl option_map. now rewrite of_uint_to_uint.
    + change (all_chars (fun c => negb (is_space c))
                (NilEmpty.string_of_uint (Pos.to_uint p)) = true).
      apply all_chars_impl with (P := is_digit); [|apply digits_string_of_uint].
      intros c Hc; now rewrite (digit_not_space c Hc).
Qed.

End NumberFacts.

(** ** The decoder reads back what the encoder writes *)

Section JsonFacts.
Import PyText Py Json.
Local Open Scope string_scope.

Lemma scan_digits_string_of_uint (d : Decimal.uint) (rest : string) :
  head_nonzero d -> no_digit_ahead rest ->
  scan_digits (NilEmpty.string_of_uint d ++ rest) = Some (d, rest).
Proof.
  intros Hd Hrest.
  destruct d as [|u|u|u|u|u|u|u|u|u|u]; try contradiction;
    match goal with
    | |- scan_digits (NilEmpty.string_of_uint (?D ?v) ++ _) = _ =>
        pose proof (take_digits_string_of_uint (D v) rest Hrest) as Ht
    end;
    cbn [NilEmpty.string_of_uint append] in *;
    unfold scan_digits; cbv [code N_of_ascii N_of_digits N.eqb Pos.eqb N.add N.mul Pos.add Pos.mul];
    rewrite Ht; reflexivity.
Qed.

Lemma scan_number_str_int (z : Z) (rest : string) :
  number_end rest ->
  scan_number (str_int z ++ rest) = Some (PyInt z, rest).
Proof.
  intros [Hd Hf].
  destruct z as [|p|p].
  - unfold scan_number. cbn. now rewrite Hf.
  - rewrite str_int_pos.
    pose proof (scan_digits_string_of_uint _ rest (to_uint_head_nonzero p) Hd) as Hs.
    pose proof (to_uint_head_nonzero p) as Hh.
    unfold scan_number.
    destruct (Pos.to_uint p) as [|u|u|u|u|u|u|u|u|u|u] eqn:E; try contradiction;
      cbn [NilEmpty.string_of_uint append] in *;
      cbv [code N_of_ascii N_of_digits N.eqb Pos.eqb N.add N.mul Pos.add Pos.mul];
      rewrite Hs; cbn [option_map fst snd]; rewrite Hf;
      rewrite <- E, of_uint_to_uint; reflexivity.
  - rewrite str_int_neg.
    pose proof (scan_digits_string_of_uint _ rest (to_uint_head_nonzero p) Hd) as Hs.
    unfold scan_number. cbn [append].
    cbv [code N_of_ascii N_of_digits N.eqb Pos.eqb N.add N.mul Pos.add Pos.mul].
    rewrite Hs; cbn [option_map fst snd]; rewrite Hf.
    now rewrite of_uint_to_uint.
Qed.

Lemma scanstring_escape_char (c : ascii) (r : string) :
  scanstring (escape_char c ++ r) = cons_str c (scanstring r).
Proof.
  destruct c as [[] [] [] [] [] [] [] []]; reflexivity.
Qed.

Lemma scanstring_escape (s rest : string) :
  scanstring (escape s ++ String dquote rest) = Some (s, rest).
Proof.
  induction s as [|c s IH]; [reflexivity|].
  cbn [escape]. rewrite append_assoc, scanstring_escape_char, IH.
  reflexivity.
Qed.

End JsonFacts.

Section CartRoundTrip.
Import PyText Py Json Views.
Local Open Scope string_scope.

Lemma scan_object_member (f : nat) (acc : list (string * value))
    (k : string) (v : value) (text tail : string) :
  skip_ws (text ++ tail) = text ++ tail ->
  scan_once f (text ++ tail) = Some (v, tail) ->
  scan_object (S f) acc (dumps_str k ++ ": " ++ text ++ tail) =
    match skip_ws tail with
    | String sep rest =>
        if (code sep =? 125)%N then Some (PyDict (dict_set acc k v), rest)
        else if (code sep =? 44)%N
             then scan_object f (dict_set acc k v) (skip_ws rest)
             else None
    | EmptyString => None
    end.
Proof.
  intros Hws Hv.
  unfold dumps_str. cbn [append]. rewrite append_assoc. cbn [append].
  cbn [scan_object].
  change (code dquote =? 34)%N with true. cbv iota.
  rewrite scanstring_escape.
  change (skip_ws (String ":" (String " " (text ++ tail))))
    with (String ":" (String " " (text ++ tail))).
  cbv iota.
  change (code ":" =? 58)%N with true. cbv iota.
  change (skip_ws (String " " (text ++ tail))) with (skip_ws (text ++ tail)).
  rewrite Hws, Hv. reflexivity.
Qed.

Lemma skip_ws_head (c : ascii) (r : string) :
  is_ws c = false -> skip_ws (String c r) = String c r.
Proof. intros H; simpl; now rewrite H. Qed.

Lemma str_int_head (z : Z) (tail : string) :
  exists c r, str_int z ++ tail = String c r
              /\ (is_digit c = true \/ code c = 45%N).
Proof.
  destruct z as [|p|p].
  - exists "0"%char, tail; split; [reflexivity | now left].
  - rewrite str_int_pos.
    pose proof (DecimalPos.Unsigned.to_uint_nonnil p) as Hn.
    destruct (Pos.to_uint p) as [|u|u|u|u|u|u|u|u|u|u]; [congruence|..];
      cbn [NilEmpty.string_of_uint append];
      eexists _, _; (split; [reflexivity | now left]).
  - rewrite str_int_neg. eexists _, _; split; [reflexivity | now right].
Qed.

Lemma number_head (c : ascii) :
  is_digit c = true \/ code c = 45%N ->
  is_ws c = false /\
  (code c =? 34)%N = false /\ (code c =? 123)%N = false /\
  (code c =? 91)%N = false /\ (code c =? 110)%N = false /\
  (code c =? 116)%N = false /\ (code c =? 102)%N = false.
Proof.
  destruct c as [[] [] [] [] [] [] [] []]; vm_compute; intros [H|H];
    try discriminate; repeat split.
Qed.

Lemma scan_once_int (f : nat) (z : Z) (tail : string) :
  number_end tail ->
  skip_ws (str_int z ++ tail) = str_int z ++ tail /\
  scan_once (S f) (str_int z ++ tail) = Some (PyInt z, tail).
Proof.
  intros Hend.
  pose proof (scan_number_str_int z tail Hend) as Hn.
  destruct (str_int_head z tail) as (c & r & E & Hc).
  rewrite E in *.
  destruct (number_head c Hc) as (Hw & H1 & H2 & H3 & H4 & H5 & H6).
  split; [now apply skip_ws_head|].
  cbn [scan_once]. now rewrite H1, H2, H3, H4, H5, H6, Hn.
Qed.

(** An entry of the cart, as [dumps] writes it. *)
Lemma dumps_item (i : ItemCarrito) :
  dumps (py_of_item i)
  = String "{" (dumps_str "cantidad" ++ ": " ++ str_int (item_cantidad i) ++ "}").
Proof.
  unfold py_of_item. cbn [dumps map join fst snd append].
  now rewrite !append_assoc.
Qed.

Lemma scan_once_open (f : nat) (k r : string) :
  scan_once (S f) (String "{" (dumps_str k ++ r))
  = scan_object f [] (dumps_str k ++ r).
Proof. reflexivity. Qed.

Lemma scan_once_item (f : nat) (i : ItemCarrito) (tail : string) :
  skip_ws (dumps (py_of_item i) ++ tail) = dumps (py_of_item i) ++ tail /\
  scan_once (S (S (S f))) (dumps (py_of_item i) ++ tail)
  = Some (py_of_item i, tail).
Proof.
  rewrite dumps_item. split; [reflexivity|].
  change (String "{" ?x ++ tail) with (String "{" (x ++ tail)).
  rewrite !append_assoc.
  assert (Hend : number_end ("}" ++ tail)) by (split; reflexivity).
  destruct (scan_once_int f (item_cantidad i) _ Hend) as [Hws Hv].
  rewrite scan_once_open.
  rewrite (scan_object_member _ _ _ _ _ _ Hws Hv).
  reflexivity.
Qed.

Lemma scan_object_entries (c : Carrito) :
  forall (acc : list (string * value)) (f : nat) (tail : string),
    c <> [] -> (List.length c + 2 <= f)%nat ->
    scan_object (S f) acc (join ", " (map member (py_entries c)) ++ String "}" tail)
    = Some (PyDict (set_all acc (py_entries c)), tail).
Proof.
  induction c as [|x c IH]; intros acc f tail Hne Hf; [congruence|].
  destruct f as [|[|[|f]]]; try (simpl in Hf; lia).
  destruct c as [|y c].
  - cbn [py_entries map join]. unfold member at 1. cbn [fst snd].
    rewrite !append_assoc.
    destruct (scan_once_item f (snd x) (String "}" tail)) as [Hws Hv].
    rewrite (scan_object_member _ _ _ _ _ _ Hws Hv).
    reflexivity.
  - change (join ", " (map member (py_entries (x :: y :: c))))
      with (member (fst x, py_of_item (snd x)) ++ ", "
            ++ join ", " (map member (py_entries (y :: c)))).
    unfold member at 1. cbn [fst snd].
    rewrite !append_assoc.
    match goal with
    | |- scan_object _ _ (_ ++ _ ++ _ ++ ?t) = _ =>
        destruct (scan_once_item f (snd x) t) as [Hws Hv]
    end.
    rewrite (scan_object_member _ _ _ _ _ _ Hws Hv).
    cbn [append]. 
    change (skip_ws (String "," (String " " ?r))) with (String "," (String " " r)).
    cbv iota.
    change (code "," =? 125)%N with false. change (code "," =? 44)%N with true.
    cbv iota.
    change (skip_ws (String " " ?r)) with (skip_ws r).
    assert (Hsk : forall k r, skip_ws (dumps_str k ++ r) = dumps_str k ++ r)
      by reflexivity.
    change (join ", " (map member (py_entries (y :: c))))
      with (join ", " (member (fst y, py_of_item (snd y))
                       :: map member (py_entries c))).
    assert (Hj : forall l, exists r,
               join ", " (member (fst y, py_of_item (snd y)) :: l)
               = dumps_str (fst y) ++ r).
    { intros [|z l]; cbn [join]; unfold member at 1; cbn [fst snd];
        eexists; [reflexivity | rewrite append_assoc; reflexivity]. }
    destruct (Hj (map member (py_entries c))) as [r Hr].
    rewrite Hr, append_assoc, Hsk, <- append_assoc, <- Hr.
    change (join ", " (member (fst y, py_of_item (snd y))
                       :: map member (py_entries c)))
      with (join ", " (map member (py_entries (y :: c)))).
    rewrite IH; [reflexivity | discriminate | simpl in *; lia].
Qed.

Lemma dict_set_fresh {V} (d : list (string * V)) (k : string) (v : V) :
  ~ In k (map fst d) -> dict_set d k v = (d ++ [(k, v)])%list.
Proof.
  induction d as [|[k' v'] d IH]; intros Hk; [reflexivity|].
  simpl in *. destruct (String.eqb_spec k k') as [->|Hne].
  - exfalso; apply Hk; now left.
  - rewrite IH; [reflexivity | tauto].
Qed.

Lemma set_all_nodup (entries acc : list (string * value)) :
  NoDup (map fst (acc ++ entries)%list) -> set_all acc entries = (acc ++ entries)%list.
Proof.
  revert acc; induction entries as [|[k v] entries IH]; intros acc Hnd.
  - simpl; now rewrite List.app_nil_r.
  - unfold set_all in *. cbn [fold_left fst snd].
    assert (Hk : ~ In k (map fst acc)).
    { rewrite map_app in Hnd. simpl in Hnd.
      pose proof (NoDup_remove_2 _ _ _ Hnd) as H.
      intros Hin; apply H, in_or_app; now left. }
    rewrite (dict_set_fresh _ _ _ Hk), IH.
    + now rewrite <- List.app_assoc.
    + now rewrite <- List.app_assoc.
Qed.

Lemma length_join_members (l : list (string * value)) :
  (2 * List.length l <= String.length (join ", " (map member l)))%nat.
Proof.
  assert (Hm : forall x, (2 <= String.length (member x))%nat).
  { intros x. unfold member, dumps_str.
    rewrite length_append. cbn [String.length].
    rewrite length_append. cbn [String.length]. lia. }
  induction l as [|x l IH]; [simpl; lia|].
  destruct l as [|y l].
  - cbn [map join]. specialize (Hm x). simpl List.length. lia.
  - change (join ", " (map member (x :: y :: l)))
      with (member x ++ ", " ++ join ", " (map member (y :: l))).
    rewrite !length_append. specialize (Hm x).
    change (List.length (x :: y :: l)) with (S (List.length (y :: l))). lia.
Qed.

(** [json.loads(json.dumps(carrito))] is the cart again. *)
Lemma loads_dumps_carrito (c : Carrito) :
  NoDup (dict_keys c) -> loads (dumps (py_of_carrito c)) = Some (py_of_carrito c).
Proof.
  intros Hnd. unfold py_of_carrito.
  destruct c as [|x c]; [reflexivity|].
  set (es := py_entries (x :: c)).
  change (dumps (PyDict es)) with (String "{" (join ", " (map member es) ++ "}")).
  unfold loads.
  change (skip_ws (String "{" ?r)) with (String "{" r).
  assert (Hopen : forall f k r,
             scan_once (S f) (String "{" (dumps_str k ++ r))
             = scan_object f [] (dumps_str k ++ r)) by reflexivity.
  assert (Hj : exists r, join ", " (map member es) ++ "}" = dumps_str (fst x) ++ r).
  { subst es. cbn [py_entries map]. 
    destruct (map member _) as [|z l]; cbn [join]; unfold member at 1;
      cbn [fst snd]; eexists; rewrite !append_assoc; reflexivity. }
  destruct Hj as [r Hr].
  rewrite Hr, Hopen, <- Hr.
  pose proof (length_join_members es) as Hlen.
  cbn [String.length]. rewrite length_append. cbn [String.length].
  replace (String.length (join ", " (map member es)) + 1)%nat
    with (S (String.length (join ", " (map member es)))) by lia.
  subst es.
  rewrite scan_object_entries; [| discriminate |].
  - cbn [skip_ws]. rewrite set_all_nodup; [reflexivity|].
    cbn [app]. unfold py_entries. rewrite map_map. cbn [fst]. exact Hnd.
  - assert (He : List.length (py_entries (x :: c)) = List.length (x :: c))
      by (unfold py_entries; apply length_map).
    rewrite He in Hlen.
    set (n := String.length _) in *. cbn [List.length] in *. lia.
Qed.

End CartRoundTrip.

(** ** The monad *)

Section MonadFacts.
Context {S : Type}.

Lemma bind_inr {A B} (m : M S A) (k : A -> M S B) (s s' : S) (a : A) :
  m s = (inr a, s') -> bind m k s = k a s'.
Proof. intros H; unfold bind; now rewrite H. Qed.

Lemma bind_inl {A B} (m : M S A) (k : A -> M S B) (s s' : S) (e : Exception) :
  m s = (inl e, s') -> bind m k s = (inl e, s').
Proof. intros H; unfold bind; now rewrite H. Qed.

Lemma preserves_ret {A} (P : S -> Prop) (a : A) : preserves P (ret a).
Proof. intros s Hs; exact Hs. Qed.

Lemma preserves_raise {A} (P : S -> Prop) (e : Exception) :
  preserves P (@raise S A e).
Proof. intros s Hs; exact Hs. Qed.

Lemma preserves_get (P : S -> Prop) : preserves P get.
Proof. intros s Hs; exact Hs. Qed.

Lemma preserves_bind {A B} (P : S -> Prop) (m : M S A) (k : A -> M S B) :
  preserves P m -> (forall a, preserves P (k a)) -> preserves P (bind m k).
Proof.
  intros Hm Hk s Hs. unfold bind.
  specialize (Hm s Hs). destruct (m s) as [[e|a] s']; simpl in *.
  - exact Hm.
  - apply Hk, Hm.
Qed.

Lemma preserves_lift_option {A} (P : S -> Prop) (e : Exception) (o : option A) :
  preserves P (lift_option e o).
Proof. destruct o; intros s Hs; exact Hs. Qed.

Lemma preserves_lift_sum {A} (P : S -> Prop) (r : Exception + A) :
  preserves P (lift_sum r).
Proof. destruct r; intros s Hs; exact Hs. Qed.

Lemma preserves_map_m {A B} (P : S -> Prop) (l : list A) (f : A -> M S B) :
  (forall x, preserves P (f x)) -> preserves P (map_m l f).
Proof.
  intros Hf; induction l as [|x l IH]; simpl.
  - apply preserves_ret.
  - apply preserves_bind; [apply Hf | intros y].
    apply preserves_bind; [exact IH | intros ys; apply preserves_ret].
Qed.

Lemma readonly_preserves {A} (P : S -> Prop) (m : M S A) :
  readonly m -> preserves P m.
Proof. intros Hm s Hs; now rewrite Hm. Qed.

End MonadFacts.

(** ** The store and the reconciliation handler *)

Section StoreFacts.
Import PyText Py Models Views System.
Local Open Scope Z_scope.

Ltac run_m :=
  unfold bind, get, put, ret, raise, lift_option, lift_sum; simpl;
  repeat match goal with
         | |- context [match ?x with _ => _ end] =>
             lazymatch x with
             | context [match _ with _ => _ end] => fail
             | _ => destruct x; simpl
             end
         end.

Lemma readonly_get_Producto (id : string) : readonly (get_object_or_404_Producto id).
Proof. intros d; unfold get_object_or_404_Producto; run_m; reflexivity. Qed.

Lemma find_producto_id (d : DB) (pk : Z) (p : Producto) :
  find_producto d pk = Some p -> producto_id p = pk.
Proof.
  unfold find_producto. intros H. apply find_some in H.
  destruct H as [_ H]. now apply Z.eqb_eq in H.
Qed.

Lemma find_producto_in (d : DB) (pk : Z) (p : Producto) :
  find_producto d pk = Some p -> In pk (map producto_id (tienda_producto d)).
Proof.
  intros H. pose proof (find_producto_id d pk p H) as <-.
  apply find_some in H. apply in_map, H.
Qed.

Section Webhook.
Variable ext : Collaborators.

(** What the handler does with a completed notification, step by step. *)
Lemma webhook_completed (request : WebhookRequest) (cs : CheckoutSession) (d : DB) :
  completed ext request cs ->
  stripe_webhook ext request d =
    match dict_get (cs_metadata cs) "user_id" with
    | None => (inl KeyError, d)
    | Some u =>
      match dict_get (cs_metadata cs) "carrito" with
      | None => (inl KeyError, d)
      | Some blob =>
        match Json.loads blob with
        | None => (inl ValueError, d)
        | Some carrito => (inl NameError, d)
        end
      end
    end.
Proof.
  intros Hc. unfold completed in Hc. unfold stripe_webhook. rewrite Hc.
  cbn [event_type event_object]. rewrite String.eqb_refl.
  unfold bind at 1. unfold lift_option at 1.
  destruct (dict_get (cs_metadata cs) "user_id") as [u|]; [|reflexivity].
  cbn [ret]. unfold bind at 1. unfold lift_option at 1.
  destruct (dict_get (cs_metadata cs) "carrito") as [blob|]; [|reflexivity].
  cbn [ret]. unfold bind at 1. unfold lift_option at 1.
  destruct (Json.loads blob) as [carrito|]; reflexivity.
Qed.

(** The handler writes nothing. *)
Lemma webhook_readonly (request : WebhookRequest) : readonly (stripe_webhook ext request).
Proof.
  intros d.
  destruct (construct_event ext (body request) (HTTP_STRIPE_SIGNATURE request)
              (STRIPE_WEBHOOK_SECRET ext)) as [err|[ty cs]] eqn:Hev.
  - unfold stripe_webhook. rewrite Hev. now destruct err.
  - destruct (String.eqb ty "checkout.session.completed") eqn:Hty.
    + apply String.eqb_eq in Hty. subst ty.
      rewrite (webhook_completed request cs d Hev).
      destruct (dict_get (cs_metadata cs) "user_id") as [u|]; [|reflexivity].
      destruct (dict_get (cs_metadata cs) "carrito") as [blob|]; [|reflexivity].
      destruct (Json.loads blob); reflexivity.
    + unfold stripe_webhook. rewrite Hev. cbn [event_type]. now rewrite Hty.
Qed.

(** A completed notification is answered 500, whatever its metadata. *)
Lemma webhook_completed_500 (request : WebhookRequest) (cs : CheckoutSession) (d : DB) :
  completed ext request cs ->
  get_response (stripe_webhook ext request) d = (Response 500, d).
Proof.
  intros Hc. unfold get_response. rewrite (webhook_completed request cs d Hc).
  destruct (dict_get (cs_metadata cs) "user_id") as [u|]; [|reflexivity].
  destruct (dict_get (cs_metadata cs) "carrito") as [blob|]; [|reflexivity].
  destruct (Json.loads blob); reflexivity.
Qed.

Lemma webhook_keeps_stock_nonneg (request : WebhookRequest) :
  preserves stock_nonneg (stripe_webhook ext request).
Proof. apply readonly_preserves, webhook_readonly. Qed.

End Webhook.
End StoreFacts.

(** ** The claims on the reconciliation handler *)

Section ReconciliationClaims.
Import PyText Py Models Views System Shop.
Local Open Scope string_scope.
Local Open Scope Z_scope.

(** C1: a notification delivered twice.  The notification of the cart
    {A: 2, B: 1}, paid by the user 7, is delivered to the shop twice: each
    delivery is answered 500 and the shop holds no order afterwards, where
    the specification has one order and a success.  Delivered to a shop that
    holds an order of its session id, it is answered 500 as well, not with
    success. *)
Theorem C1_delivered_twice :
  run (collaborators cs_ab gateway_up) (Webhook notification) (mundo None tienda)
  = (Response 500, mundo None tienda)
  /\ tienda_pedido
       (db (run_all (collaborators cs_ab gateway_up)
              [Webhook notification; Webhook notification] (mundo None tienda)))
     = []
  /\ has_tx tienda_ab (cs_id cs_ab) = true
  /\ get_response (stripe_webhook (collaborators cs_ab gateway_up) notification)
       tienda_ab
     = (Response 500, tienda_ab).
Proof. repeat split; vm_compute; reflexivity. Qed.



(** C4: a notification that is to be materialized.  The notification of
    the cart {A: 2, B: 1} (A at 10.00 with a stock of 5, B at 20.00 with a
    stock of 3, 40.00 confirmed, paid by the user 7, who exists) passes the
    verification and is of the completed kind, and no order carries its
    session id: the handler raises [NameError] and answers 500, and the shop
    has no order, no line, and the stocks 5 and 3 as before, where the
    specification has one order, two lines and the stocks 3 and 2. *)
Theorem C4_nothing_materialized :
  completed (collaborators cs_ab gateway_up) notification cs_ab
  /\ decodes cs_ab 7 (py_of_carrito carrito_ab)
  /\ has_user tienda 7 = true
  /\ has_tx tienda (cs_id cs_ab) = false
  /\ fst (stripe_webhook (collaborators cs_ab gateway_up) notification tienda)
     = inl NameError
  /\ get_response (stripe_webhook (collaborators cs_ab gateway_up) notification) tienda
     = (Response 500, tienda)
  /\ tienda_pedido tienda = []
  /\ tienda_detallepedido tienda = []
  /\ map stock (tienda_producto tienda) = [5; 3].
Proof.
  split; [reflexivity|].
  split.
  { exists "7", (Json.dumps (py_of_carrito carrito_ab)).
    repeat split; vm_compute; reflexivity. }
  repeat split; vm_compute; reflexivity.
Qed.

(** C10: a notification of an unknown user.  The metadata of the
    notification name the user 8, and the shop has no user 8: the handler
    raises [NameError] and answers 500, where the specification has the
    not-found answer (404); the store is left as it was. *)
Theorem C10_unknown_user :
  completed (collaborators cs_stranger gateway_up) notification cs_stranger
  /\ decodes cs_stranger 8 (py_of_carrito carrito_ab)
  /\ has_user tienda 8 = false
  /\ stripe_webhook (collaborators cs_stranger gateway_up) notification tienda
     = (inl NameError, tienda)
  /\ status_code
       (fst (get_response
               (stripe_webhook (collaborators cs_stranger gateway_up) notification)
               tienda))
     = 500.
Proof.
  split; [reflexivity|].
  split.
  { exists "8", (Json.dumps (py_of_carrito carrito_ab)).
    repeat split; vm_compute; reflexivity. }
  repeat split; vm_compute; reflexivity.
Qed.

End ReconciliationClaims.

(** ** What the views of the browser leave in the store *)

Section BrowserViews.
Import PyText Py Models Views System.
Local Open Scope Z_scope.

Lemma preserves_lift_db {A} (P : World -> Prop) (m : M DB A) :
  readonly m -> preserves P (lift_db m).
Proof.
  intros Hm w Hw. unfold lift_db. specialize (Hm (db w)).
  destruct (m (db w)) as [r db']. simpl in *. subst db'.
  now destruct w.
Qed.

Lemma preserves_session_get (P : World -> Prop) : preserves P session_get_carrito.
Proof. intros w Hw; exact Hw. Qed.

Lemma preserves_get_response {S} (P : S -> Prop) (view : M S HttpResponse) (s : S) :
  preserves P view -> P s -> P (snd (get_response view s)).
Proof.
  intros Hv Hs. specialize (Hv s Hs). unfold get_response.
  destruct (view s) as [[e|r] s']; [destruct e|]; exact Hv.
Qed.

Lemma session_set_keeps_db (d : DB) (c : Carrito) :
  preserves (fun w => db w = d) (session_set_carrito c).
Proof. intros w Hw; exact Hw. Qed.

Lemma messages_add_keeps (d : DB) (s : Session) (l : Level) (text : string) :
  preserves (fun w => db w = d /\ session w = s) (messages_add l text).
Proof. intros w Hw; exact Hw. Qed.

Lemma messages_add_keeps_db (d : DB) (l : Level) (text : string) :
  preserves (fun w => db w = d) (messages_add l text).
Proof. intros w Hw; exact Hw. Qed.

(** The cart views read the catalogue and write to the session. *)
Lemma agregar_keeps_db (request : HttpRequest) (d : DB) :
  preserves (fun w => db w = d) (agregar_al_carrito request).
Proof.
  unfold agregar_al_carrito, require_POST.
  destruct (String.eqb _ _); [|apply preserves_ret].
  apply preserves_bind;
    [apply preserves_lift_db, readonly_get_Producto | intros producto].
  apply preserves_bind; [apply preserves_session_get | intros carrito].
  destruct (stock producto <=? 0); [apply preserves_ret|].
  match goal with
  | |- preserves _ (match ?u with _ => _ end) => destruct u as [response|carrito']
  end; [apply preserves_ret|].
  apply preserves_bind; [apply session_set_keeps_db | intros _].
  apply preserves_bind; [apply messages_add_keeps_db | intros _].
  apply preserves_ret.
Qed.

Lemma actualizar_keeps_db (request : HttpRequest) (d : DB) :
  preserves (fun w => db w = d) (actualizar_carrito request).
Proof.
  unfold actualizar_carrito, require_POST.
  destruct (String.eqb _ _); [|apply preserves_ret].
  apply preserves_bind; [apply preserves_lift_sum | intros cantidad].
  apply preserves_bind; [apply preserves_session_get | intros carrito].
  destruct (dict_mem carrito _); [|apply preserves_ret].
  apply preserves_bind; [apply session_set_keeps_db | intros _].
  apply preserves_ret.
Qed.

(** The checkout initiation reads the catalogue and the session, and writes
    to the message store alone. *)
Lemma crear_sesion_keeps (ext : Collaborators) (request : HttpRequest)
    (d : DB) (s : Session) :
  preserves (fun w => db w = d /\ session w = s) (crear_sesion_pago ext request).
Proof.
  unfold crear_sesion_pago, login_required.
  destruct (user request) as [uid|]; [|apply preserves_ret].
  apply preserves_bind; [apply preserves_session_get | intros carrito].
  destruct carrito as [|entry carrito].
  - apply preserves_bind; [apply messages_add_keeps | intros _].
    apply preserves_ret.
  - apply preserves_bind.
    + apply preserves_map_m. intros x.
      apply preserves_bind;
        [apply preserves_lift_db, readonly_get_Producto | intros producto].
      apply preserves_bind; [apply preserves_lift_sum | intros url].
      apply preserves_ret.
    + intros items. destruct (Session_create ext _) as [e|checkout_session].
      * apply preserves_bind; [apply messages_add_keeps | intros _].
        apply preserves_ret.
      * apply preserves_ret.
Qed.

End BrowserViews.

(** ** The invariants of the store *)

Section Invariants.
Import PyText Py Models Views System.
Local Open Scope Z_scope.
Variable ext : Collaborators.

(** The handler inserts no order: the transaction ids stay as they are. *)
Lemma webhook_keeps_unique_tx (request : WebhookRequest) :
  preserves unique_tx (stripe_webhook ext request).
Proof. apply readonly_preserves, webhook_readonly. Qed.

Lemma run_db (P : DB -> Prop) (op : Operation) (w : World) :
  (forall request, preserves P (stripe_webhook ext request)) ->
  P (db w) -> P (db (snd (run ext op w))).
Proof.
  intros Hweb Hw. destruct op as [r|r|r|r]; cbn [run].
  - rewrite (preserves_get_response (fun w' => db w' = db w) _ w
               (agregar_keeps_db r (db w)) eq_refl). exact Hw.
  - rewrite (preserves_get_response (fun w' => db w' = db w) _ w
               (actualizar_keeps_db r (db w)) eq_refl). exact Hw.
  - rewrite (proj1 (preserves_get_response
                      (fun w' => db w' = db w /\ session w' = session w) _ w
                      (crear_sesion_keeps ext r (db w) (session w))
                      (conj eq_refl eq_refl))).
    exact Hw.
  - pose proof (preserves_get_response P _ (db w) (Hweb r) Hw) as H.
    destruct (get_response (stripe_webhook ext r) (db w)) as [response d].
    exact H.
Qed.

Lemma run_all_db (P : DB -> Prop) (ops : list Operation) :
  (forall request, preserves P (stripe_webhook ext request)) ->
  forall w, P (db w) -> P (db (run_all ext ops w)).
Proof.
  intros Hweb. unfold run_all.
  induction ops as [|op ops IH]; intros w Hw; [exact Hw|].
  cbn [fold_left]. apply IH. now apply run_db.
Qed.

End Invariants.

Section InvariantClaims.
Import PyText Py Models Views System Shop.
Local Open Scope string_scope.
Local Open Scope Z_scope.

(** C3, as amended: the store puts no uniqueness constraint on the
    external-payment-transaction-id; the ids stay pairwise distinct under the
    operations of the application alone: from a store whose Orders carry
    pairwise distinct ids, any sequence of operations processed one after
    the other leaves a store whose Orders carry pairwise distinct ids. *)
Theorem C3_unique_by_precheck (ext : Collaborators) (ops : list Operation) (w : World) :
  unique_tx (db w) -> unique_tx (db (run_all ext ops w)).
Proof.
  apply run_all_db. intros request. apply webhook_keeps_unique_tx.
Qed.

Lemma C3_witness :
  unique_tx
    (db (run_all (collaborators cs_ab gateway_up)
           [Webhook notification; Webhook notification] (mundo None tienda))).
Proof.
  apply (C3_unique_by_precheck (collaborators cs_ab gateway_up)
           [Webhook notification; Webhook notification] (mundo None tienda)).
  constructor.
Defined.

(** C3 as stated fails: the store takes a second Order with the
    transaction id of an Order it holds. *)
Lemma C3_counterexample :
  has_tx tienda_ab "cs_test_1" = true
  /\ exists p d',
       Pedido_objects_create 7 4000 EnPreparacion "cs_test_1" tienda_ab = (inr p, d')
       /\ tx_ids d' = ["cs_test_1"; "cs_test_1"]
       /\ ~ unique_tx d'.
Proof.
  split; [vm_compute; reflexivity|].
  eexists _, _. split; [vm_compute; reflexivity|].
  split; [reflexivity|].
  unfold unique_tx. cbn. intros H. inversion H as [|? ? Hin _]; subst.
  apply Hin. now left.
Qed.

(** C5: whatever cart mutations, checkout initiations and notifications are
    processed, no product of the store has a negative stock afterwards. *)
Theorem C5_stock_never_negative (ext : Collaborators) (ops : list Operation) (w : World) :
  stock_nonneg (db w) -> stock_nonneg (db (run_all ext ops w)).
Proof.
  apply run_all_db. intros request. apply webhook_keeps_stock_nonneg.
Qed.

Lemma C5_witness :
  stock_nonneg
    (db (run_all (collaborators cs_over gateway_up)
           [Agregar (post None (SInt 1) SNone);
            CrearSesionPago (post (Some 7) SNone SNone);
            Webhook notification] (mundo None tienda))).
Proof.
  apply (C5_stock_never_negative (collaborators cs_over gateway_up)).
  repeat constructor; vm_compute; congruence.
Defined.

End InvariantClaims.

(** ** The cart *)

Section DictFacts.
Import Py.
Context {V : Type}.

Lemma dict_get_set_same (d : list (string * V)) (k : string) (v : V) :
  dict_get (dict_set d k v) k = Some v.
Proof.
  induction d as [|[k' v'] d IH]; cbn [dict_set dict_get].
  - now rewrite String.eqb_refl.
  - destruct (String.eqb k k') eqn:E; cbn [dict_get]; rewrite E; auto.
Qed.

Lemma dict_get_set_other (d : list (string * V)) (k k' : string) (v : V) :
  k' <> k -> dict_get (dict_set d k v) k' = dict_get d k'.
Proof.
  intros Hne. induction d as [|[k0 v0] d IH]; cbn [dict_set dict_get].
  - now rewrite (proj2 (String.eqb_neq k' k) Hne).
  - destruct (String.eqb k k0) eqn:E; cbn [dict_get]; [|now rewrite IH].
    apply String.eqb_eq in E. subst k0.
    now rewrite (proj2 (String.eqb_neq k' k) Hne).
Qed.

Lemma dict_get_del_same (d : list (string * V)) (k : string) :
  dict_get (dict_del d k) k = None.
Proof.
  induction d as [|[k' v'] d IH]; cbn [dict_del dict_get]; [reflexivity|].
  destruct (String.eqb k k') eqn:E; cbn [dict_get]; [exact IH|].
  now rewrite E.
Qed.

Lemma dict_get_del_other (d : list (string * V)) (k k' : string) :
  k' <> k -> dict_get (dict_del d k) k' = dict_get d k'.
Proof.
  intros Hne. induction d as [|[k0 v0] d IH]; cbn [dict_del dict_get]; [reflexivity|].
  destruct (String.eqb k k0) eqn:E; cbn [dict_get]; rewrite IH; [|reflexivity].
  apply String.eqb_eq in E. subst k0.
  now rewrite (proj2 (String.eqb_neq k' k) Hne).
Qed.

(** The keys of a [dict] stay distinct. *)
Lemma dict_set_keys (d : list (string * V)) (k : string) (v : V) :
  NoDup (dict_keys d) -> NoDup (dict_keys (dict_set d k v)).
Proof.
  unfold dict_keys. induction d as [|[k' v'] d IH]; cbn [dict_set map fst].
  - intros _. constructor; [intros [] | constructor].
  - intros Hnd. inversion Hnd as [|? ? Hk Hd]; subst.
    destruct (String.eqb k k') eqn:E; cbn [map fst]; [exact Hnd|].
    constructor; [|now apply IH].
    intros Hin. apply Hk. clear IH Hnd Hd Hk.
    induction d as [|[k0 v0] d IHd]; cbn [dict_set map fst In] in *.
    + destruct Hin as [Hin|[]]. subst. now rewrite String.eqb_refl in E.
    + destruct (String.eqb k k0); cbn [map fst In] in Hin; tauto.
Qed.

Lemma dict_del_keys (d : list (string * V)) (k : string) :
  NoDup (dict_keys d) -> NoDup (dict_keys (dict_del d k)).
Proof.
  unfold dict_keys. induction d as [|[k' v'] d IH]; cbn [dict_del map fst]; [auto|].
  intros Hnd. inversion Hnd as [|? ? Hk Hd]; subst.
  destruct (String.eqb k k'); cbn [map fst]; [now apply IH|].
  constructor; [|now apply IH].
  intros Hin. apply Hk. clear IH Hnd Hd Hk.
  induction d as [|[k0 v0] d IHd]; cbn [dict_del map fst In] in *; [tauto|].
  destruct (String.eqb k k0); cbn [map fst In] in Hin; tauto.
Qed.

End DictFacts.

Section CartClaims.
Import PyText Py Models Views System Shop.
Local Open Scope string_scope.
Local Open Scope Z_scope.

(** [agregar_al_carrito] on a product of the catalogue, step by step. *)
Lemma agregar_eval (request : HttpRequest) (w : World) (p : Producto) :
  method request = "POST" ->
  int_str (str (data_get request "producto_id")) = Some (producto_id p) ->
  find_producto (db w) (producto_id p) = Some p ->
  agregar_al_carrito request w =
    let k := str (data_get request "producto_id") in
    let ok c' :=
      (inr (JsonResponse
              [("mensaje", PyStr (nombre p ++ " a" ++ n_tilde ++ "adido al carrito."));
               ("total_items", PyInt (total_items c'))] 200),
       added w p c') in
    if stock p <=? 0
    then (inr (JsonResponse [("error", PyStr "Producto sin stock")] 400), w)
    else match dict_get (cart_of w) k with
         | Some item =>
             if stock p >? item_cantidad item
             then ok (dict_set (cart_of w) k {| item_cantidad := item_cantidad item + 1 |})
             else (inr (JsonResponse [("error", PyStr "No hay suficiente stock")] 400), w)
         | None => ok (dict_set (cart_of w) k {| item_cantidad := 1 |})
         end.
Proof.
  intros Hm Hk Hp. destruct w as [[sc] ms d]. cbn [db] in Hp.
  unfold agregar_al_carrito, require_POST. rewrite Hm, String.eqb_refl.
  unfold bind at 1. unfold lift_db, get_object_or_404_Producto.
  cbn [db session message_store].
  unfold bind at 1. unfold bind at 1. rewrite Hk. cbn [lift_option ret].
  unfold bind at 1. cbn [get]. rewrite Hp. cbn [lift_option ret].
  unfold bind at 1. unfold session_get_carrito. unfold bind at 1. cbn [get ret].
  cbn [session session_carrito cart_of]. cbv zeta.
  change (cart_of {| session := {| session_carrito := sc |};
                     message_store := ms; db := d |})
    with (match sc with Some c => c | None => [] end).
  destruct (stock p <=? 0); [reflexivity|].
  destruct (dict_get _ _) as [item|]; [destruct (stock p >? item_cantidad item)|];
    reflexivity.
Qed.

(** C6, as amended: [add] is keyed by the text of the request,
    [str(producto_id)], and not by the product.  On a product of the
    catalogue it fails with the out-of-stock error, the cart unchanged, when
    the stock is 0; when the cart has an entry under the text of the request
    it raises the quantity of that entry by exactly 1, and fails with the
    insufficient-stock error, the cart unchanged, when the raised quantity
    would exceed the stock; when the cart has no entry under that text it
    inserts one, with the quantity 1, after the others. *)
Theorem C6_agregar_al_carrito (request : HttpRequest) (w : World) (p : Producto) :
  method request = "POST" ->
  int_str (str (data_get request "producto_id")) = Some (producto_id p) ->
  find_producto (db w) (producto_id p) = Some p ->
  let k := str (data_get request "producto_id") in
  let after := get_response (agregar_al_carrito request) w in
  (stock p = 0 ->
   after = (JsonResponse [("error", PyStr "Producto sin stock")] 400, w))
  /\ (forall item, 0 < stock p -> dict_get (cart_of w) k = Some item ->
        (item_cantidad item + 1 <= stock p ->
         status_code (fst after) = 200
         /\ dict_get (cart_of (snd after)) k
            = Some {| item_cantidad := item_cantidad item + 1 |}
         /\ same_elsewhere (cart_of w) (cart_of (snd after)) k)
        /\ (stock p < item_cantidad item + 1 ->
            after = (JsonResponse [("error", PyStr "No hay suficiente stock")] 400, w)))
  /\ (0 < stock p -> dict_get (cart_of w) k = None ->
      status_code (fst after) = 200
      /\ cart_of (snd after) = (cart_of w ++ [(k, {| item_cantidad := 1 |})])%list).
Proof.
  intros Hm Hk Hp k after. subst after. unfold get_response.
  rewrite (agregar_eval request w p Hm Hk Hp). cbv zeta. fold k.
  split; [|split].
  - intros H0. rewrite H0. reflexivity.
  - intros item Hpos Hitem. rewrite Hitem.
    replace (stock p <=? 0) with false by (symmetry; apply Z.leb_gt; lia).
    split.
    + intros Hle.
      replace (stock p >? item_cantidad item) with true
        by (symmetry; apply Z.gtb_lt; lia).
      cbn [fst snd status_code added cart_of session session_carrito].
      split; [reflexivity|]. split.
      * apply dict_get_set_same.
      * intros k' Hne. now apply dict_get_set_other.
    + intros Hgt.
      replace (stock p >? item_cantidad item) with false; [reflexivity|].
      symmetry. rewrite Z.gtb_ltb. apply Z.ltb_ge. lia.
  - intros Hpos Hnone. rewrite Hnone.
    replace (stock p <=? 0) with false by (symmetry; apply Z.leb_gt; lia).
    cbn [fst snd status_code added cart_of session session_carrito].
    split; [reflexivity|].
    apply dict_set_fresh. intros Hin.
    clear - Hin Hnone. induction (cart_of w) as [|[k' v'] c IH];
      cbn [map fst In dict_get] in *; [tauto|].
    destruct (String.eqb_spec k k'); [discriminate|].
    destruct Hin as [E|Hin]; [congruence | auto].
Qed.

Lemma C6_witness :
  dict_get
    (cart_of (snd (get_response (agregar_al_carrito (post None (SInt 1) SNone))
                     (mundo (Some [("1", item 2)]) tienda))))
    "1"
  = Some (item 3).
Proof.
  destruct (C6_agregar_al_carrito (post None (SInt 1) SNone)
              (mundo (Some [("1", item 2)]) tienda) producto_a)
    as (_ & H & _).
  - reflexivity.
  - reflexivity.
  - reflexivity.
  - destruct (H (item 2)) as [Hinc _].
    + reflexivity.
    + reflexivity.
    + apply Hinc. vm_compute; congruence.
Defined.

(** C6 as stated fails: the product 1, of which 5 are in stock, is in the
    cart with the quantity 5, under the key ["1"].  Asked for as ["01"], it is
    the same product of the catalogue; the request is not refused for
    insufficient stock and the quantity of the entry is not raised: a second
    entry for the product is inserted, under the key ["01"]. *)
Lemma C6_counterexample :
  let request := post None (SStr "01") SNone in
  let w := mundo (Some [("1", item 5)]) tienda in
  let after := get_response (agregar_al_carrito request) w in
  fst (get_object_or_404_Producto (str (data_get request "producto_id")) (db w))
  = inr producto_a
  /\ producto_id producto_a = 1
  /\ stock producto_a = 5
  /\ cart_of w = [(str_int (producto_id producto_a), item 5)]
  /\ after <> (JsonResponse [("error", PyStr "No hay suficiente stock")] 400, w)
  /\ status_code (fst after) = 200
  /\ cart_of (snd after) = [("1", item 5); ("01", item 1)].
Proof.
  cbv zeta. repeat split; try (vm_compute; reflexivity).
  vm_compute. discriminate.
Qed.

(** [actualizar_carrito], step by step. *)
Lemma actualizar_eval (request : HttpRequest) (w : World) (q : Z) :
  method request = "POST" ->
  int (data_get request "cantidad") = inr q ->
  actualizar_carrito request w =
    let k := str (data_get request "producto_id") in
    if dict_mem (cart_of w) k
    then (inr (JsonResponse [("mensaje", PyStr "Carrito actualizado.")] 200),
          {| session :=
               {| session_carrito :=
                    Some (if q >? 0
                          then dict_set (cart_of w) k {| item_cantidad := q |}
                          else dict_del (cart_of w) k) |};
             message_store := message_store w; db := db w |})
    else (inr (JsonResponse
                 [("error", PyStr "Producto no encontrado en el carrito")] 404), w).
Proof.
  intros Hm Hq. destruct w as [[sc] ms d].
  unfold actualizar_carrito, require_POST. rewrite Hm, String.eqb_refl.
  unfold bind at 1. rewrite Hq. cbn [lift_sum ret].
  unfold bind at 1. unfold session_get_carrito. unfold bind at 1. cbn [get ret].
  cbn [session session_carrito]. cbv zeta.
  change (cart_of {| session := {| session_carrito := sc |};
                     message_store := ms; db := d |})
    with (match sc with Some c => c | None => [] end).
  destruct (dict_mem _ _); reflexivity.
Qed.



End CartClaims.

(** ** The checkout initiation *)

Section CheckoutClaims.
Import PyText Py Models Views System Shop.
Local Open Scope string_scope.
Local Open Scope Z_scope.

(** The line items are built without a write when every entry is sellable. *)
Lemma line_items_built (ext : Collaborators) (c : Carrito) (w : World) :
  Forall (sellable (db w)) c ->
  exists items,
    map_m c (fun entry =>
      bind (lift_db (get_object_or_404_Producto (fst entry))) (fun producto =>
      bind (lift_sum (imagen_url ext producto)) (fun url =>
      ret {| currency := "usd";
             product_name := nombre producto;
             product_images := [build_absolute_uri ext url];
             unit_amount := precio producto;
             quantity := item_cantidad (snd entry) |}))) w
    = (inr items, w).
Proof.
  destruct w as [s ms d]. cbn [db].
  induction c as [|entry c IH]; intros Hc.
  - exists []. reflexivity.
  - inversion Hc as [|? ? (p & Hk & Hp & Hi) Hc']; subst.
    destruct (IH Hc') as (items & Hitems).
    destruct (imagen p) as [|a0 s0] eqn:Ei; [congruence|].
    cbn [map_m].
    match goal with
    | |- context [bind ?m _ {| session := s; message_store := ms; db := d |}] =>
        assert (Hentry : exists item,
                   m {| session := s; message_store := ms; db := d |}
                   = (inr item, {| session := s; message_store := ms; db := d |}))
    end.
    { eexists. unfold bind at 1. unfold lift_db, get_object_or_404_Producto.
      cbn [db session message_store].
      unfold bind at 1. unfold bind at 1. rewrite Hk. cbn [lift_option ret].
      unfold bind at 1. cbn [get]. rewrite Hp. cbn [lift_option ret].
      unfold imagen_url. rewrite Ei.
      cbn [lift_sum ret]. reflexivity. }
    destruct Hentry as (item & Hentry).
    eexists.
    rewrite (bind_inr _ _ _ _ _ Hentry), (bind_inr _ _ _ _ _ Hitems).
    reflexivity.
Qed.

(** C8: checkout initiation fails with the empty-cart error when the cart
    has no entry; for every cart it leaves the database (no Order, no stock)
    and the cart of the session as they were; and when the call to the gateway
    fails it tells the user of the error and goes back to the cart. *)
Theorem C8_crear_sesion_pago (ext : Collaborators) (request : HttpRequest)
    (uid : Z) (w : World) :
  user request = Some uid ->
  let after := get_response (crear_sesion_pago ext request) w in
  (cart_of w = [] ->
   after = (Redirect "vista_carrito" 302,
            told w ("Tu carrito est" ++ a_acute ++ " vac" ++ i_acute ++ "o.")))
  /\ db (snd after) = db w
  /\ session (snd after) = session w
  /\ (forall e,
        cart_of w <> [] ->
        Forall (sellable (db w)) (cart_of w) ->
        (forall params, Session_create ext params = inl e) ->
        after = (Redirect "vista_carrito" 302,
                 told w ("Error al conectar con la pasarela de pago: " ++ e))).
Proof.
  intros Hu after.
  assert (Hkeep : db (snd after) = db w /\ session (snd after) = session w).
  { apply (preserves_get_response
             (fun w' => db w' = db w /\ session w' = session w)).
    - apply crear_sesion_keeps.
    - split; reflexivity. }
  destruct Hkeep as [Hdb Hs].
  split; [|split; [exact Hdb | split; [exact Hs|]]].
  - intros Hc. subst after. unfold get_response, crear_sesion_pago, login_required.
    rewrite Hu. unfold bind at 1. unfold session_get_carrito.
    unfold bind at 1. cbn [get ret]. fold (cart_of w). rewrite Hc.
    reflexivity.
  - intros e Hne Hsell Hdown. subst after.
    unfold get_response, crear_sesion_pago, login_required.
    rewrite Hu. unfold bind at 1. unfold session_get_carrito.
    unfold bind at 1. cbn [get ret]. fold (cart_of w).
    destruct (cart_of w) as [|entry c] eqn:Ec; [congruence|].
    destruct (line_items_built ext (entry :: c) w Hsell) as (items & Hitems).
    unfold bind at 1. rewrite Hitems. rewrite Hdown.
    reflexivity.
Qed.

Lemma C8_witness :
  get_response (crear_sesion_pago (collaborators cs_ab gateway_down)
                  (post (Some 7) SNone SNone))
    (mundo (Some carrito_ab) tienda)
  = (Redirect "vista_carrito" 302,
     told (mundo (Some carrito_ab) tienda)
       "Error al conectar con la pasarela de pago: Connection refused").
Proof.
  destruct (C8_crear_sesion_pago (collaborators cs_ab gateway_down)
              (post (Some 7) SNone SNone) 7 (mundo (Some carrito_ab) tienda))
    as (_ & _ & _ & H).
  - reflexivity.
  - apply H.
    + discriminate.
    + repeat constructor.
      * exists producto_a. repeat split; try reflexivity. discriminate.
      * exists producto_b. repeat split; try reflexivity. discriminate.
    + reflexivity.
Defined.



End CheckoutClaims.

(** ** What the webhook answers, and that it writes nothing *)

Section WebhookWrites.
Import PyText Py Models Views System.
Local Open Scope Z_scope.

Lemma get_response_snd {S} (view : M S HttpResponse) (s : S) :
  snd (get_response view s) = snd (view s).
Proof.
  unfold get_response. destruct (view s) as [[e|r] s']; [destruct e|]; reflexivity.
Qed.

(** X1: the webhook never writes to the store, whatever the notification
    and whatever the store; it answers every notification of a completed
    session with 500, also when the metadata decode, the user exists and no
    order carries the session id; and the only notifications it answers with
    200 are those of an event of another type. *)
Theorem webhook_never_writes (ext : Collaborators) (request : WebhookRequest) (d : DB) :
  snd (get_response (stripe_webhook ext request) d) = d
  /\ (forall cs, completed ext request cs ->
                 get_response (stripe_webhook ext request) d = (Response 500, d))
  /\ (status_code (fst (get_response (stripe_webhook ext request) d)) = 200 ->
      exists event,
        construct_event ext (body request) (HTTP_STRIPE_SIGNATURE request)
          (STRIPE_WEBHOOK_SECRET ext) = inr event
        /\ event_type event <> "checkout.session.completed"%string).
Proof.
  split; [rewrite get_response_snd; apply webhook_readonly|].
  split; [intros cs Hc; now apply webhook_completed_500 with cs|].
  destruct (construct_event ext (body request) (HTTP_STRIPE_SIGNATURE request)
              (STRIPE_WEBHOOK_SECRET ext)) as [err|[ty cs]] eqn:Hev.
  - unfold get_response, stripe_webhook. rewrite Hev. destruct err; discriminate.
  - destruct (String.eqb ty "checkout.session.completed") eqn:Hty.
    + apply String.eqb_eq in Hty. subst ty.
      rewrite (webhook_completed_500 ext request cs d Hev). discriminate.
    + intros _. eexists. split; [reflexivity|]. cbn [event_type].
      now apply String.eqb_neq.
Qed.

(** X2: the answers of the webhook on the paths that write nothing: 400 when
    the verification fails, 200 for an event of another kind, 500 when the
    metadata of a completed session do not decode. *)
Theorem webhook_answers (ext : Collaborators) (request : WebhookRequest) (d : DB) :
  (forall err,
     construct_event ext (body request) (HTTP_STRIPE_SIGNATURE request)
       (STRIPE_WEBHOOK_SECRET ext) = inl err ->
     get_response (stripe_webhook ext request) d = (Response 400, d))
  /\ (forall event,
        construct_event ext (body request) (HTTP_STRIPE_SIGNATURE request)
          (STRIPE_WEBHOOK_SECRET ext) = inr event ->
        event_type event <> "checkout.session.completed"%string ->
        get_response (stripe_webhook ext request) d = (Response 200, d))
  /\ (forall cs,
        completed ext request cs ->
        (forall uid carrito, ~ decodes cs uid carrito) ->
        get_response (stripe_webhook ext request) d = (Response 500, d)).
Proof.
  split; [|split].
  - intros err Hev. unfold get_response, stripe_webhook. rewrite Hev.
    now destruct err.
  - intros event Hev Hty. unfold get_response, stripe_webhook. rewrite Hev.
    now rewrite (proj2 (String.eqb_neq _ _) Hty).
  - intros cs Hc _. now apply webhook_completed_500 with cs.
Qed.

End WebhookWrites.

(** ** Every path of the cart views *)

Section CartPaths.
Import PyText Py Models Views System CartLife.
Local Open Scope string_scope.
Local Open Scope Z_scope.

(** [agregar_al_carrito], whatever the request: the world is left as it was,
    or the answer is 200 and the entry of the product is new with the
    quantity 1, or raised by 1, within the stock. *)
Lemma agregar_cases (request : HttpRequest) (w : World) :
  let k := str (data_get request "producto_id") in
  let after := get_response (agregar_al_carrito request) w in
  (status_code (fst after) <> 200 /\ snd after = w)
  \/ exists p n,
       int_str k = Some (producto_id p)
       /\ find_producto (db w) (producto_id p) = Some p
       /\ n <= stock p
       /\ (dict_get (cart_of w) k = None /\ n = 1
           \/ exists item, dict_get (cart_of w) k = Some item
                           /\ n = item_cantidad item + 1)
       /\ status_code (fst after) = 200
       /\ snd after = added w p (dict_set (cart_of w) k {| item_cantidad := n |}).
Proof.
  intros k after. subst after.
  destruct (String.eqb (method request) "POST") eqn:Hm.
  2:{ left. unfold get_response, agregar_al_carrito, require_POST. rewrite Hm.
      split; [discriminate | reflexivity]. }
  apply String.eqb_eq in Hm.
  destruct (int_str k) as [pk|] eqn:Hk.
  2:{ left.
      assert (E : agregar_al_carrito request w = (inl ValueError, w)).
      { destruct w as [[sc] ms d].
        unfold agregar_al_carrito, require_POST.
        rewrite Hm, String.eqb_refl. unfold bind at 1.
        unfold lift_db, get_object_or_404_Producto. cbn [db session message_store].
        unfold bind at 1. unfold bind at 1. fold k. rewrite Hk. reflexivity. }
      unfold get_response. rewrite E. split; [discriminate | reflexivity]. }
  destruct (find_producto (db w) pk) as [p|] eqn:Hp.
  2:{ left.
      assert (E : agregar_al_carrito request w = (inl Http404, w)).
      { destruct w as [[sc] ms d]. cbn [db] in Hp.
        unfold agregar_al_carrito, require_POST.
        rewrite Hm, String.eqb_refl. unfold bind at 1.
        unfold lift_db, get_object_or_404_Producto. cbn [db session message_store].
        unfold bind at 1. unfold bind at 1. fold k. rewrite Hk.
        cbn [lift_option ret]. unfold bind at 1. cbn [get]. rewrite Hp.
        reflexivity. }
      unfold get_response. rewrite E. split; [discriminate | reflexivity]. }
  pose proof (find_producto_id _ _ _ Hp) as Hid. subst pk.
  unfold get_response. rewrite (agregar_eval request w p Hm Hk Hp). cbv zeta. fold k.
  destruct (stock p <=? 0) eqn:Hs; [left; split; [discriminate | reflexivity]|].
  apply Z.leb_gt in Hs.
  destruct (dict_get (cart_of w) k) as [item|] eqn:Hitem.
  - destruct (stock p >? item_cantidad item) eqn:Hq;
      [|left; split; [discriminate | reflexivity]].
    apply Z.gtb_lt in Hq.
    right. exists p, (item_cantidad item + 1). repeat split; try assumption; try lia.
    right. now exists item.
  - right. exists p, 1. repeat split; try assumption; try lia. now left.
Qed.

(** [actualizar_carrito], whatever the request: the world is left as it was,
    or the answer is 200 and the entry that was in the cart has the quantity
    asked, or is gone when 0 or less was asked. *)
Lemma actualizar_cases (request : HttpRequest) (w : World) :
  let k := str (data_get request "producto_id") in
  let after := get_response (actualizar_carrito request) w in
  (status_code (fst after) <> 200 /\ snd after = w)
  \/ exists q,
       int (data_get request "cantidad") = inr q
       /\ dict_mem (cart_of w) k = true
       /\ status_code (fst after) = 200
       /\ snd after = with_cart w (if q >? 0
                                   then dict_set (cart_of w) k {| item_cantidad := q |}
                                   else dict_del (cart_of w) k).
Proof.
  intros k after. subst after.
  destruct (String.eqb (method request) "POST") eqn:Hm.
  2:{ left. unfold get_response, actualizar_carrito, require_POST. rewrite Hm.
      split; [discriminate | reflexivity]. }
  apply String.eqb_eq in Hm.
  destruct (int (data_get request "cantidad")) as [e|q] eqn:Hq.
  - left.
    assert (E : actualizar_carrito request w = (inl e, w)).
    { unfold actualizar_carrito, require_POST. rewrite Hm, String.eqb_refl.
      unfold bind at 1. rewrite Hq. reflexivity. }
    unfold get_response. rewrite E. destruct e; split; (discriminate || reflexivity).
  - unfold get_response. rewrite (actualizar_eval request w q Hm Hq). cbv zeta. fold k.
    destruct (dict_mem (cart_of w) k) eqn:Hk.
    + right. exists q. repeat split.
    + left. split; [discriminate | reflexivity].
Qed.

End CartPaths.

(** ** The cart through a session *)

Section CartLifeFacts.
Import PyText Py Models Views System CartLife.
Local Open Scope string_scope.
Local Open Scope Z_scope.

(** X5: a cart request that is not answered with 200 changes nothing: neither
    the cart, nor the message store, nor the database. *)
Theorem cart_request_failed_changes_nothing (request : HttpRequest) (w : World) :
  (status_code (fst (get_response (agregar_al_carrito request) w)) <> 200 ->
   snd (get_response (agregar_al_carrito request) w) = w)
  /\ (status_code (fst (get_response (actualizar_carrito request) w)) <> 200 ->
      snd (get_response (actualizar_carrito request) w) = w).
Proof.
  split; intros Hne.
  - destruct (agregar_cases request w) as [[_ H]|(p & n & _ & _ & _ & _ & Hs & _)];
      [exact H | contradiction].
  - destruct (actualizar_cases request w) as [[_ H]|(q & _ & _ & Hs & _)];
      [exact H | contradiction].
Qed.

Lemma dict_get_In {V} (c : list (string * V)) (k : string) (v : V) :
  dict_get c k = Some v -> In (k, v) c.
Proof.
  induction c as [|[k' v'] c IH]; cbn [dict_get In]; [discriminate|].
  destruct (String.eqb_spec k k') as [->|Hne]; intros H.
  - inversion H; subst. now left.
  - right. now apply IH.
Qed.

Lemma Forall_dict_set {V} (P : string * V -> Prop) (c : list (string * V))
    (k : string) (v : V) :
  Forall P c -> P (k, v) -> Forall P (dict_set c k v).
Proof.
  intros Hc Hk. induction Hc as [|[k' v'] c Hx Hc IH]; cbn [dict_set].
  - constructor; [exact Hk | constructor].
  - destruct (String.eqb_spec k k') as [->|Hne]; constructor; assumption.
Qed.

Lemma Forall_dict_del {V} (P : string * V -> Prop) (c : list (string * V)) (k : string) :
  Forall P c -> Forall P (dict_del c k).
Proof.
  intros Hc. induction Hc as [|[k' v'] c Hx Hc IH]; cbn [dict_del]; [constructor|].
  destruct (String.eqb k k'); [exact IH | constructor; assumption].
Qed.

(** The webhook removes no product from the catalogue and adds none. *)
Lemma webhook_keeps_ids (ext : Collaborators) (request : WebhookRequest) (d : DB) :
  map producto_id (tienda_producto (snd (get_response (stripe_webhook ext request) d)))
  = map producto_id (tienda_producto d).
Proof. now rewrite get_response_snd, webhook_readonly. Qed.

Lemma cart_ok_same (w w' : World) :
  session w' = session w ->
  map producto_id (tienda_producto (db w')) = map producto_id (tienda_producto (db w)) ->
  cart_ok w -> cart_ok w'.
Proof.
  unfold cart_ok, cart_of, names_product. intros -> ->. tauto.
Qed.

Lemma run_keeps_cart_ok (ext : Collaborators) (op : Operation) (w : World) :
  cart_ok w -> cart_ok (snd (run ext op w)).
Proof.
  intros [Hnd Hall]. destruct op as [r|r|r|r]; cbn [run].
  - destruct (agregar_cases r w)
      as [[_ ->]|(p & n & Hk & Hp & Hn & Hcase & _ & ->)]; [now split|].
    split; cbn [added cart_of session session_carrito db].
    + now apply dict_set_keys.
    + apply Forall_dict_set; [exact Hall|]. cbn [fst snd item_cantidad]. split.
      * exists (producto_id p). split; [exact Hk|]. now apply (find_producto_in _ _ p).
      * destruct Hcase as [[_ ->]|(item & Hitem & ->)]; [lia|].
        apply dict_get_In in Hitem.
        pose proof (proj1 (Forall_forall _ _) Hall _ Hitem) as [_ Hq].
        cbn [snd] in Hq. lia.
  - destruct (actualizar_cases r w) as [[_ ->]|(q & _ & Hmem & _ & ->)]; [now split|].
    unfold cart_ok. cbn [with_cart cart_of session session_carrito db].
    destruct (q >? 0) eqn:Hq.
    + split; [now apply dict_set_keys|].
      apply Forall_dict_set; [exact Hall|]. cbn [fst snd item_cantidad].
      apply Z.gtb_lt in Hq. split; [|lia].
      unfold dict_mem in Hmem.
      destruct (dict_get (cart_of w) _) as [item|] eqn:Hitem; [|discriminate].
      apply dict_get_In in Hitem.
      exact (proj1 (proj1 (Forall_forall _ _) Hall _ Hitem)).
    + split; [now apply dict_del_keys | now apply Forall_dict_del].
  - destruct (preserves_get_response
                (fun w' => db w' = db w /\ session w' = session w) _ w
                (crear_sesion_keeps ext r (db w) (session w))
                (conj eq_refl eq_refl)) as [Hd Hs].
    apply (cart_ok_same w); [exact Hs | now rewrite Hd | now split].
  - pose proof (webhook_keeps_ids ext r (db w)) as Hids.
    destruct (get_response (stripe_webhook ext r) (db w)) as [response d'].
    apply (cart_ok_same w); [reflexivity | exact Hids | now split].
Qed.

(** X6: through every sequence of cart mutations, checkout initiations and
    notifications, the cart of a session holds no key twice, no quantity
    below 1, and no key that does not name a product of the catalogue. *)
Theorem cart_ok_invariant (ext : Collaborators) (ops : list Operation) (w : World) :
  cart_ok w -> cart_ok (run_all ext ops w).
Proof.
  unfold run_all. revert w. induction ops as [|op ops IH]; intros w Hw; [exact Hw|].
  cbn [fold_left]. apply IH. now apply run_keeps_cart_ok.
Qed.

End CartLifeFacts.

(** ** The same product, added again and again *)

Section RepeatedAdd.
Import PyText Py Models Views System CartLife.
Local Open Scope string_scope.
Local Open Scope Z_scope.

Variables (request : HttpRequest) (w : World) (p : Producto).
Let k := str (data_get request "producto_id").
Hypothesis Hpost : method request = "POST".
Hypothesis Hkey : int_str k = Some (producto_id p).
Hypothesis Hfind : find_producto (db w) (producto_id p) = Some p.

Lemma agregar_veces_db (n : nat) : db (agregar_veces n request w) = db w.
Proof using Hpost Hkey Hfind.
  induction n as [|n IH]; [reflexivity|].
  change (agregar_veces (S n) request w)
    with (snd (get_response (agregar_al_carrito request) (agregar_veces n request w))).
  set (wn := agregar_veces n request w) in *.
  pose proof (agregar_cases request wn) as H. cbv zeta in H.
  destruct H as [[_ H]|(p' & m & _ & _ & _ & _ & _ & H)]; rewrite H; exact IH.
Qed.

Lemma agregar_veces_step (n : nat) :
  0 < stock p ->
  dict_get (cart_of w) k = None ->
  dict_get (cart_of (agregar_veces (S n) request w)) k
  = Some {| item_cantidad := Z.min (Z.of_nat (S n)) (stock p) |}.
Proof using Hpost Hkey Hfind.
  intros Hs Hnew. induction n as [|n IH].
  - change (agregar_veces 1 request w)
      with (snd (get_response (agregar_al_carrito request) w)).
    unfold get_response.
    rewrite (agregar_eval request w p Hpost Hkey Hfind). cbv zeta. fold k.
    rewrite (proj2 (Z.leb_gt _ _) Hs), Hnew. cbn [snd added cart_of session session_carrito].
    rewrite dict_get_set_same. f_equal. f_equal. lia.
  - pose proof (agregar_veces_db (S n)) as Hdb.
    change (agregar_veces (S (S n)) request w)
      with (snd (get_response (agregar_al_carrito request) (agregar_veces (S n) request w))).
    set (wn := agregar_veces (S n) request w) in *.
    assert (Hfind' : find_producto (db wn) (producto_id p) = Some p)
      by now rewrite Hdb.
    unfold get_response.
    rewrite (agregar_eval request wn p Hpost Hkey Hfind'). cbv zeta. fold k.
    rewrite (proj2 (Z.leb_gt _ _) Hs), IH. cbn [item_cantidad].
    destruct (stock p >? Z.min (Z.of_nat (S n)) (stock p)) eqn:Hq.
    + apply Z.gtb_lt in Hq.
      cbn [snd added cart_of session session_carrito].
      rewrite dict_get_set_same. f_equal. f_equal. lia.
    + cbn [snd]. rewrite IH. f_equal. f_equal.
      assert (stock p <= Z.min (Z.of_nat (S n)) (stock p)).
      { destruct (Z.gtb_spec (stock p) (Z.min (Z.of_nat (S n)) (stock p)));
          [discriminate | lia]. }
      lia.
Qed.

End RepeatedAdd.

Section RepeatedAddTheorem.
Import PyText Py Models Views System CartLife.
Local Open Scope string_scope.
Local Open Scope Z_scope.

(** X7: adding a product of the catalogue that is in stock and not yet in the
    cart, [n] times over ([n] at least 1), leaves it in the cart with the
    quantity [min n stock]: the quantity follows the number of requests up to
    the stock and stays there. *)
Theorem agregar_veces_saturates (request : HttpRequest) (w : World) (p : Producto) (n : nat) :
  method request = "POST" ->
  int_str (str (data_get request "producto_id")) = Some (producto_id p) ->
  find_producto (db w) (producto_id p) = Some p ->
  0 < stock p ->
  dict_get (cart_of w) (str (data_get request "producto_id")) = None ->
  (0 < n)%nat ->
  dict_get (cart_of (agregar_veces n request w)) (str (data_get request "producto_id"))
  = Some {| item_cantidad := Z.min (Z.of_nat n) (stock p) |}.
Proof.
  intros Hm Hk Hp Hs Hnew Hn. destruct n as [|n]; [inversion Hn|].
  now apply agregar_veces_step.
Qed.

Lemma agregar_veces_saturates_witness :
  dict_get (cart_of (agregar_veces 7 (Shop.post None (SInt 2) SNone)
                       (Shop.mundo None Shop.tienda))) "2"
  = Some {| item_cantidad := 3 |}.
Proof.
  exact (agregar_veces_saturates (Shop.post None (SInt 2) SNone)
           (Shop.mundo None Shop.tienda) Shop.producto_b 7
           eq_refl eq_refl eq_refl eq_refl eq_refl
           (le_S _ _ (le_S _ _ (le_S _ _ (le_S _ _ (le_S _ _ (le_S _ _ (le_n 1)))))))).
Defined.

End RepeatedAddTheorem.

(** ** Every path of the checkout initiation *)

Section CheckoutPaths.
Import PyText Py Models Views System Checkout.
Local Open Scope string_scope.
Local Open Scope Z_scope.

Variable ext : Collaborators.

Lemma crear_sesion_unfold (request : HttpRequest) (uid : Z) (w : World) :
  user request = Some uid ->
  crear_sesion_pago ext request w =
    match cart_of w with
    | [] =>
        (inr (Redirect "vista_carrito" 302),
         told w ("Tu carrito est" ++ a_acute ++ " vac" ++ i_acute ++ "o."))
    | _ :: _ =>
        match map_m (cart_of w) (build_line_item ext) w with
        | (inl e, w') => (inl e, w')
        | (inr items, w') =>
            match Session_create ext (checkout_params ext request uid (cart_of w) items) with
            | inr cs => (inr (Redirect (cs_url cs) 302), w')
            | inl e =>
                (inr (Redirect "vista_carrito" 302),
                 told w' ("Error al conectar con la pasarela de pago: " ++ e))
            end
        end
    end.
Proof.
  intros Hu. unfold crear_sesion_pago, login_required. rewrite Hu.
  unfold bind at 1. unfold session_get_carrito. unfold bind at 1. cbn [get ret].
  fold (cart_of w). destruct (cart_of w) as [|entry c]; [reflexivity|].
  unfold bind at 1.
  change (map_m (entry :: c) _ w) with (map_m (entry :: c) (build_line_item ext) w).
  destruct (map_m (entry :: c) (build_line_item ext) w) as [[e|items] w']; [reflexivity|].
  destruct (Session_create ext _) as [e|cs]; reflexivity.
Qed.

Lemma build_line_item_ok (entry : string * ItemCarrito) (p : Producto) (w : World) :
  int_str (fst entry) = Some (producto_id p) ->
  find_producto (db w) (producto_id p) = Some p ->
  imagen p <> EmptyString ->
  build_line_item ext entry w = (inr (line_item ext p entry), w).
Proof.
  intros Hk Hp Hi. destruct w as [s ms d]. cbn [db] in Hp.
  unfold build_line_item. unfold bind at 1.
  unfold lift_db, get_object_or_404_Producto. cbn [db session message_store].
  unfold bind at 1. unfold bind at 1. rewrite Hk. cbn [lift_option ret].
  unfold bind at 1. cbn [get]. rewrite Hp. cbn [lift_option ret].
  unfold imagen_url, line_item.
  destruct (imagen p) as [|a s0]; [congruence | reflexivity].
Qed.

Lemma build_line_item_fault (entry : string * ItemCarrito) (w : World) :
  ~ sellable (db w) entry ->
  exists e, build_line_item ext entry w = (inl e, w)
            /\ match e with Http404 => 404 | _ => 500 end = fault_status (db w) entry.
Proof.
  intros Hno. destruct w as [s ms d]. cbn [db] in *.
  unfold build_line_item, fault_status. unfold bind at 1.
  unfold lift_db, get_object_or_404_Producto. cbn [db session message_store].
  unfold bind at 1. unfold bind at 1.
  destruct (int_str (fst entry)) as [pk|] eqn:Hk; cbn [lift_option ret raise];
    [|exists ValueError; split; reflexivity].
  unfold bind at 1. cbn [get].
  destruct (find_producto d pk) as [p|] eqn:Hp; cbn [lift_option ret raise];
    [|exists Http404; split; reflexivity].
  unfold imagen_url.
  destruct (imagen p) as [|a s0] eqn:Hi; cbn [lift_sum raise];
    [exists ValueError; split; reflexivity|].
  exfalso. apply Hno. exists p.
  pose proof (find_producto_id _ _ _ Hp) as Hid. subst pk.
  repeat split; try assumption. congruence.
Qed.

Lemma line_items_exact (c : Carrito) (items : list LineItem) (w : World) :
  Forall2 (priced ext (db w)) c items ->
  map_m c (build_line_item ext) w = (inr items, w).
Proof.
  induction 1 as [|entry li c items (p & Hk & Hp & Hi & ->) _ IH]; [reflexivity|].
  cbn [map_m].
  rewrite (bind_inr _ _ _ _ _ (build_line_item_ok entry p w Hk Hp Hi)).
  rewrite (bind_inr _ _ _ _ _ IH). reflexivity.
Qed.

Lemma line_items_stop (c1 c2 : Carrito) (entry : string * ItemCarrito)
    (e : Exception) (w : World) :
  Forall (sellable (db w)) c1 ->
  build_line_item ext entry w = (inl e, w) ->
  map_m (c1 ++ entry :: c2) (build_line_item ext) w = (inl e, w).
Proof.
  intros Hc He. induction Hc as [|x c1 (p & Hk & Hp & Hi) _ IH]; cbn [app map_m].
  - now rewrite (bind_inl _ _ _ _ _ He).
  - rewrite (bind_inr _ _ _ _ _ (build_line_item_ok x p w Hk Hp Hi)).
    now rewrite (bind_inl _ _ _ _ _ IH).
Qed.

(** X8: the cart of a session whose entries are all sellable goes to the gateway
    as one line item per entry, in the order of the cart, with the name, the
    image and the current price of the product and the quantity of the entry,
    together with the user key and the cart as JSON; when the gateway answers
    with a session, the answer is the redirect to its URL, and the world is
    left as it was. *)
Theorem checkout_redirects_to_gateway (request : HttpRequest) (uid : Z) (w : World)
    (items : list LineItem) (cs : CheckoutSession) :
  user request = Some uid ->
  cart_of w <> [] ->
  Forall2 (priced ext (db w)) (cart_of w) items ->
  Session_create ext (checkout_params ext request uid (cart_of w) items) = inr cs ->
  get_response (crear_sesion_pago ext request) w = (Redirect (cs_url cs) 302, w).
Proof.
  intros Hu Hne Hitems Hcs. unfold get_response.
  rewrite (crear_sesion_unfold request uid w Hu).
  destruct (cart_of w) as [|entry c] eqn:Ec; [congruence|].
  rewrite (line_items_exact _ _ _ Hitems), Hcs. reflexivity.
Qed.

(** X9: when an entry of the cart is not sellable and the entries before it are,
    the checkout initiation answers 404 (the key is an integer that names no
    product) or 500 (the key is no integer, or the product has no image),
    whatever the gateway would have answered, and the world is left as it
    was. *)
Theorem checkout_faults (request : HttpRequest) (uid : Z) (w : World)
    (c1 c2 : Carrito) (entry : string * ItemCarrito) :
  user request = Some uid ->
  cart_of w = (c1 ++ entry :: c2)%list ->
  Forall (sellable (db w)) c1 ->
  ~ sellable (db w) entry ->
  get_response (crear_sesion_pago ext request) w
  = (Response (fault_status (db w) entry), w).
Proof.
  intros Hu Ec Hc1 Hno. unfold get_response.
  rewrite (crear_sesion_unfold request uid w Hu). rewrite Ec.
  destruct (build_line_item_fault entry w Hno) as (e & He & Hst).
  rewrite (line_items_stop c1 c2 entry e w Hc1 He).
  destruct (c1 ++ entry :: c2)%list as [|x c] eqn:Ex;
    [now destruct c1|].
  destruct e; rewrite <- Hst; reflexivity.
Qed.

End CheckoutPaths.

(** ** The cart page *)

Section CartPageFacts.
Import PyText Py Models Views System CartPage.
Local Open Scope string_scope.
Local Open Scope Z_scope.

Variable py : Arithmetic.
Variable STRIPE_PUBLIC_KEY : string.

Lemma get_producto_cases (k : string) (w : World) :
  (exists e, lift_db (get_object_or_404_Producto k) w = (inl e, w)
             /\ (e = ValueError /\ int_str k = None
                 \/ e = Http404 /\ exists pk, int_str k = Some pk
                                              /\ find_producto (db w) pk = None))
  \/ (exists p, lift_db (get_object_or_404_Producto k) w = (inr p, w)
                /\ int_str k = Some (producto_id p)
                /\ find_producto (db w) (producto_id p) = Some p).
Proof.
  destruct w as [s ms d].
  unfold lift_db, get_object_or_404_Producto, bind, get.
  cbn [db session message_store].
  destruct (int_str k) as [pk|] eqn:Hk; cbn [lift_option ret raise].
  2:{ left. exists ValueError. split; [reflexivity | left; now split]. }
  destruct (find_producto d pk) as [p|] eqn:Hp; cbn [lift_option ret raise].
  - right. exists p. pose proof (find_producto_id _ _ _ Hp) as Hid. subst pk.
    repeat split; try reflexivity; assumption.
  - left. exists Http404. split; [reflexivity | right; split; [reflexivity|]].
    now exists pk.
Qed.

Lemma loop_step (entry : string * ItemCarrito) (c : Carrito)
    (items : list (ItemVista py)) (s : number py) (w : World) :
  vista_carrito_loop py (entry :: c) items s w =
    match lift_db (get_object_or_404_Producto (fst entry)) w with
    | (inl e, w') => (inl e, w')
    | (inr p, w') =>
        match py_mul py (NDecimal (Decimal_of_field py (precio p)))
                (NInt (item_cantidad (snd entry))) with
        | inl e => (inl e, w')
        | inr t =>
            match py_add py s t with
            | inl e => (inl e, w')
            | inr s' =>
                vista_carrito_loop py c
                  (items ++ [{| iv_producto := p;
                                iv_cantidad := item_cantidad (snd entry);
                                iv_total_item := t |}])%list s' w'
            end
        end
    end.
Proof.
  cbn [vista_carrito_loop]. unfold bind at 1.
  destruct (lift_db _ w) as [[e|p] w']; [reflexivity|].
  unfold bind at 1. destruct (py_mul py _ _) as [e|t]; [reflexivity|].
  cbn [lift_sum ret]. unfold bind at 1.
  destruct (py_add py s t) as [e|s']; reflexivity.
Qed.

(** One turn of the loop from a subtotal that is no [float]: the turn
    raises, or the subtotal is a [Decimal]. *)
Lemma loop_from_decimal (c : Carrito) (items : list (ItemVista py)) (d : decimal py)
    (w : World) :
  (exists e, vista_carrito_loop py c items (NDecimal d) w = (inl e, w))
  \/ (exists items' d',
        vista_carrito_loop py c items (NDecimal d) w = (inr (items', NDecimal d'), w)).
Proof.
  revert items d. induction c as [|entry c IH]; intros items d.
  - right. now exists items, d.
  - rewrite loop_step.
    destruct (get_producto_cases (fst entry) w) as [(e & -> & _)|(p & -> & _)].
    + left. now exists e.
    + cbn [py_mul].
      destruct (decimal_mul py _ _) as [e|t]; [left; now exists e|].
      cbn [py_add].
      destruct (decimal_add py d t) as [e|d']; [left; now exists e|].
      apply IH.
Qed.

Lemma loop_from_zero (c : Carrito) (w : World) :
  c <> [] ->
  (exists e, vista_carrito_loop py c [] (NInt 0) w = (inl e, w))
  \/ (exists items' d',
        vista_carrito_loop py c [] (NInt 0) w = (inr (items', NDecimal d'), w)).
Proof.
  destruct c as [|entry c]; [congruence|]. intros _.
  rewrite loop_step.
  destruct (get_producto_cases (fst entry) w) as [(e & -> & _)|(p & -> & _)].
  - left. now exists e.
  - cbn [py_mul].
    destruct (decimal_mul py _ _) as [e|t]; [left; now exists e|].
    cbn [py_add].
    destruct (decimal_add py t _) as [e|d']; [left; now exists e|].
    apply loop_from_decimal.
Qed.

Lemma vista_carrito_unfold (request : HttpRequest) (w : World) :
  vista_carrito py STRIPE_PUBLIC_KEY request w =
    match vista_carrito_loop py (cart_of w) [] (NInt 0) w with
    | (inl e, w') => (inl e, w')
    | (inr looped, w') =>
        match py_mul py (snd looped) (NFloat (float_0_19 py)) with
        | inl e => (inl e, w')
        | inr impuesto =>
            match py_add py (snd looped) impuesto with
            | inl e => (inl e, w')
            | inr total_final =>
                (inr (Render py "tienda/carrito.html"
                        {| items_carrito := fst looped;
                           subtotal_carrito := snd looped;
                           impuesto := impuesto;
                           total_final := total_final;
                           stripe_public_key := STRIPE_PUBLIC_KEY |}), w')
            end
        end
    end.
Proof.
  unfold vista_carrito. unfold bind at 1. unfold session_get_carrito.
  unfold bind at 1. cbn [get ret]. fold (cart_of w).
  unfold bind at 1.
  destruct (vista_carrito_loop py (cart_of w) [] (NInt 0) w) as [[e|looped] w'];
    [reflexivity|].
  unfold bind at 1.
  destruct (py_mul py (snd looped) _) as [e|imp]; [reflexivity|].
  cbn [lift_sum ret]. unfold bind at 1.
  destruct (py_add py (snd looped) imp) as [e|tot]; reflexivity.
Qed.

(** X11: the cart page is rendered for the empty cart and for no other: with an
    entry in the cart the view raises, and the world is left as it was.  For
    the empty cart the context has no item, the subtotal [0], and as tax and
    total what the floats make of [0 * 0.19] and [0 + 0 * 0.19]. *)
Theorem vista_carrito_renders_iff_empty (request : HttpRequest) (w : World)
    (zero : float py) :
  float_of_int py 0 = inr zero ->
  ((exists page, vista_carrito py STRIPE_PUBLIC_KEY request w = (inr page, w))
   <-> cart_of w = [])
  /\ (cart_of w <> [] ->
      exists e, vista_carrito py STRIPE_PUBLIC_KEY request w = (inl e, w))
  /\ (cart_of w = [] ->
      vista_carrito py STRIPE_PUBLIC_KEY request w
      = (inr (Render py "tienda/carrito.html"
                {| items_carrito := [];
                   subtotal_carrito := NInt 0;
                   impuesto := NFloat (float_mul py zero (float_0_19 py));
                   total_final :=
                     NFloat (float_add py zero (float_mul py zero (float_0_19 py)));
                   stripe_public_key := STRIPE_PUBLIC_KEY |}), w)).
Proof.
  intros Hzero.
  assert (Hraise : cart_of w <> [] ->
                   exists e, vista_carrito py STRIPE_PUBLIC_KEY request w = (inl e, w)).
  { intros Hne. rewrite vista_carrito_unfold.
    destruct (loop_from_zero (cart_of w) w Hne) as [(e & ->)|(items & d & ->)].
    - now exists e.
    - exists TypeError. reflexivity. }
  assert (Hempty : cart_of w = [] ->
                   vista_carrito py STRIPE_PUBLIC_KEY request w
                   = (inr (Render py "tienda/carrito.html"
                             {| items_carrito := [];
                                subtotal_carrito := NInt 0;
                                impuesto := NFloat (float_mul py zero (float_0_19 py));
                                total_final :=
                                  NFloat (float_add py zero
                                            (float_mul py zero (float_0_19 py)));
                                stripe_public_key := STRIPE_PUBLIC_KEY |}), w)).
  { intros Hc. rewrite vista_carrito_unfold, Hc.
    cbn [vista_carrito_loop ret snd fst py_mul]. rewrite Hzero.
    cbn [py_add]. rewrite Hzero. reflexivity. }
  split; [split|split; assumption].
  - intros (page & Hpage).
    destruct (cart_of w) as [|entry c] eqn:Ec; [reflexivity|].
    destruct Hraise as (e & He); [discriminate|]. congruence.
  - intros Hc. eexists. now apply Hempty.
Qed.

(** The loop on entries that all name a row of the catalogue, when the
    arithmetic does not raise. *)
Lemma loop_listed (c : Carrito) (items : list (ItemVista py)) (s : number py) (w : World) :
  arithmetic_total py ->
  (forall f, s <> NFloat f) ->
  Forall (listed (db w)) c ->
  c <> [] ->
  exists items' d', vista_carrito_loop py c items s w = (inr (items', NDecimal d'), w).
Proof.
  intros (Hmul & Hadd & _) Hs Hc. revert items s Hs.
  induction Hc as [|entry c (p & Hk & Hp) _ IH]; intros items s Hs Hne; [congruence|].
  rewrite loop_step.
  destruct (get_producto_cases (fst entry) w)
    as [(e & _ & [[_ He]|[_ (pk & He & Hnone)]])|(p' & -> & _)].
  - congruence.
  - rewrite Hk in He. inversion He; subst pk. congruence.
  - cbn [py_mul].
    destruct (Hmul (Decimal_of_field py (precio p'))
                   (Decimal_of_int py (item_cantidad (snd entry)))) as (t & ->).
    assert (Hsum : exists d', py_add py s (NDecimal t) = inr (NDecimal d')).
    { destruct s as [z|d|f]; cbn [py_add].
      - destruct (Hadd t (Decimal_of_int py z)) as (r & ->). now exists r.
      - destruct (Hadd d t) as (r & ->). now exists r.
      - now destruct (Hs f). }
    destruct Hsum as (d' & ->).
    destruct c as [|entry' c'].
    + cbn [vista_carrito_loop ret]. now eexists _, d'.
    + apply IH; [intros f; discriminate | discriminate].
Qed.

Lemma loop_stops (c1 c2 : Carrito) (entry : string * ItemCarrito)
    (items : list (ItemVista py)) (s : number py) (e : Exception) (w : World) :
  arithmetic_total py ->
  (forall f, s <> NFloat f) ->
  Forall (listed (db w)) c1 ->
  lift_db (get_object_or_404_Producto (fst entry)) w = (inl e, w) ->
  vista_carrito_loop py (c1 ++ entry :: c2)%list items s w = (inl e, w).
Proof.
  intros (Hmul & Hadd & _) Hs Hc He. revert items s Hs.
  induction Hc as [|y c (p & Hk & Hp) Hc IH]; intros items s Hs.
  - cbn [app]. rewrite loop_step, He. reflexivity.
  - cbn [app]. rewrite loop_step.
    destruct (get_producto_cases (fst y) w)
      as [(e' & _ & [[_ He']|[_ (pk & He' & Hnone)]])|(p' & -> & _)].
    + congruence.
    + rewrite Hk in He'. inversion He'; subst pk. congruence.
    + cbn [py_mul].
      destruct (Hmul (Decimal_of_field py (precio p'))
                     (Decimal_of_int py (item_cantidad (snd y)))) as (t & ->).
      assert (Hsum : exists d', py_add py s (NDecimal t) = inr (NDecimal d')).
      { destruct s as [z|d|f]; cbn [py_add].
        - destruct (Hadd t (Decimal_of_int py z)) as (r & ->). now exists r.
        - destruct (Hadd d t) as (r & ->). now exists r.
        - now destruct (Hs f). }
      destruct Hsum as (d' & ->).
      apply IH. intros f; discriminate.
Qed.

(** X12: with an arithmetic that does not raise, the view on a cart that is not
    empty raises [TypeError], at the product of the [Decimal] subtotal and the
    [float] 0.19, when every entry names a product; and it raises at the first
    entry that does not: [Http404] for a key that is an integer and names no
    product, [ValueError] for a key that is no integer. *)
Theorem vista_carrito_raises (request : HttpRequest) (w : World) :
  arithmetic_total py ->
  (cart_of w <> [] -> Forall (listed (db w)) (cart_of w) ->
   vista_carrito py STRIPE_PUBLIC_KEY request w = (inl TypeError, w))
  /\ (forall c1 entry c2,
        cart_of w = (c1 ++ entry :: c2)%list ->
        Forall (listed (db w)) c1 ->
        ~ listed (db w) entry ->
        vista_carrito py STRIPE_PUBLIC_KEY request w
        = (inl (match int_str (fst entry) with
                | Some _ => Http404
                | None => ValueError
                end), w)).
Proof.
  intros Hpy. split.
  - intros Hne Hc. rewrite vista_carrito_unfold.
    destruct (loop_listed (cart_of w) [] (NInt 0) w Hpy) as (items & d & ->);
      try assumption; [intros f; discriminate | reflexivity].
  - intros c1 entry c2 Ec Hc1 Hno. rewrite vista_carrito_unfold, Ec.
    destruct (get_producto_cases (fst entry) w)
      as [(e & He & [[-> Hk]|[-> (pk & Hk & _)]])|(p & _ & Hk & Hp)].
    + rewrite (loop_stops c1 c2 entry [] (NInt 0) ValueError w Hpy); try assumption;
        [now rewrite Hk | intros f; discriminate].
    + rewrite (loop_stops c1 c2 entry [] (NInt 0) Http404 w Hpy); try assumption;
        [now rewrite Hk | intros f; discriminate].
    + exfalso. apply Hno. now exists p.
Qed.

End CartPageFacts.

Section CartPageExamples.
Import PyText Py Models Views System CartPage.
Local Open Scope string_scope.
Local Open Scope Z_scope.

Lemma vista_carrito_renders_iff_empty_witness :
  exists e,
    vista_carrito exact_arithmetic "pk_test" (Shop.post None SNone SNone)
      (Shop.mundo (Some Shop.carrito_ab) Shop.tienda)
    = (inl e, Shop.mundo (Some Shop.carrito_ab) Shop.tienda).
Proof.
  refine (proj1 (proj2 (vista_carrito_renders_iff_empty exact_arithmetic "pk_test"
                          (Shop.post None SNone SNone)
                          (Shop.mundo (Some Shop.carrito_ab) Shop.tienda)
                          (0, 1) eq_refl)) _).
  discriminate.
Defined.

Lemma vista_carrito_raises_witness :
  vista_carrito exact_arithmetic "pk_test" (Shop.post None SNone SNone)
    (Shop.mundo (Some Shop.carrito_ab) Shop.tienda)
  = (inl TypeError, Shop.mundo (Some Shop.carrito_ab) Shop.tienda).
Proof.
  refine (proj1 (vista_carrito_raises exact_arithmetic "pk_test" (Shop.post None SNone SNone)
                   (Shop.mundo (Some Shop.carrito_ab) Shop.tienda) _) _ _).
  - repeat split; intros; eexists; reflexivity.
  - discriminate.
  - constructor; [|constructor; [|constructor]].
    + exists Shop.producto_a. split; reflexivity.
    + exists Shop.producto_b. split; reflexivity.
Defined.

End CartPageExamples.

(** ** The catalogue *)

Section CatalogueFacts.
Import PyText Py Models Views System Site.
Local Open Scope string_scope.
Local Open Scope Z_scope.

Variable dbms : Database.

Lemma perm_in_iff {A} (x : A) {l l' : list A} :
  Permutation l l' -> (In x l <-> In x l').
Proof.
  intros H. split; apply Permutation_in; [exact H | now apply Permutation_sym].
Qed.

Lemma truthy_text (v : option string) :
  truthy v = true <-> exists s, v = Some s /\ s <> EmptyString.
Proof.
  destruct v as [[|a s]|]; cbn [truthy]; split; try discriminate.
  - intros (s & H & Hne). inversion H. congruence.
  - intros _. eexists. split; [reflexivity | discriminate].
  - intros _. reflexivity.
  - intros (s & H & _). discriminate.
Qed.

Lemma objects_first_none (l : list DisenoPersonalizado) :
  objects_first l = None <-> l = [].
Proof.
  destruct l as [|x l]; [split; reflexivity|].
  split; [|discriminate]. cbn [objects_first fold_right].
  destruct (fold_right _ None l) as [y|]; [destruct (_ <=? _)|]; discriminate.
Qed.

(** The rows that [catalogo] selects for a name filter and a category. *)
Lemma catalogo_unfold (GET : QueryDict) (t : Tables) :
  catalogo dbms GET t =
    let query := QueryDict_get GET "q" in
    let categoria_id := QueryDict_get GET "categoria" in
    let page sel by_category :=
      (inr (Page "tienda/catalogo.html"
              {| productos :=
                   order_by_nombre dbms
                     (filter (fun p =>
                                disponible p
                                && (if truthy query
                                    then icontains dbms (nombre p)
                                           (match query with
                                            | Some q => q | None => EmptyString
                                            end)
                                    else true)
                                && by_category p)
                             (tienda_producto (store t)));
                 categorias := unordered dbms (tienda_categoria t);
                 diseno := objects_first (tienda_disenopersonalizado t);
                 selected_categoria := sel |}), t) in
    if truthy categoria_id
    then match int_str (match categoria_id with Some c => c | None => EmptyString end) with
         | Some pk =>
             match out_of_range dbms pk with
             | Some e => (inl e, t)
             | None =>
                 page (Some pk)
                      (fun p => match categoria p with
                                | Some c => c =? pk
                                | None => false
                                end)
             end
         | None => (inl ValueError, t)
         end
    else page None (fun _ => true).
Proof.
  unfold catalogo, render_catalogo, bind, get. cbv zeta.
  destruct (truthy (QueryDict_get GET "categoria")); cbn [ret].
  - destruct (int_str _) as [pk|]; cbn [lift_option ret raise]; [|reflexivity].
    destruct (out_of_range dbms pk); cbn [ret raise]; [reflexivity|].
    destruct (truthy (QueryDict_get GET "q")); reflexivity.
  - destruct (truthy (QueryDict_get GET "q")); reflexivity.
Qed.

(** X13: [catalogo], whatever the request.  It raises [ValueError] when
    the query string has a category that is no integer, and what the database
    raises when the category is an integer beyond the range of its key column;
    otherwise it answers the catalogue page, on which a product is listed
    exactly when it is a row of the table that is available, matches the text
    searched for (when there is one) and belongs to the category asked for
    (when there is one).  The categories are those of the table, and the page
    has no design exactly when the administrator may add one.  The tables are
    left as they were. *)
Theorem catalogo_lists (GET : QueryDict) (t : Tables) :
  exists r,
    catalogo dbms GET t = (r, t)
    /\ match r with
       | inl e =>
           exists c, QueryDict_get GET "categoria" = Some c
                     /\ c <> EmptyString
                     /\ match int_str c with
                        | None => e = ValueError
                        | Some pk => out_of_range dbms pk = Some e
                        end
       | inr (Page template ctx) =>
           template = "tienda/catalogo.html"
           /\ (forall c, QueryDict_get GET "categoria" = Some c -> c <> EmptyString ->
                         exists pk, int_str c = Some pk
                                    /\ out_of_range dbms pk = None
                                    /\ selected_categoria ctx = Some pk)
           /\ (truthy (QueryDict_get GET "categoria") = false ->
               selected_categoria ctx = None)
           /\ (forall p,
                 In p (productos ctx)
                 <-> In p (tienda_producto (store t))
                     /\ disponible p = true
                     /\ (forall q, QueryDict_get GET "q" = Some q -> q <> EmptyString ->
                                   icontains dbms (nombre p) q = true)
                     /\ (forall pk, selected_categoria ctx = Some pk ->
                                    categoria p = Some pk))
           /\ Permutation (categorias ctx) (tienda_categoria t)
           /\ (diseno ctx = None <-> has_add_permission t = true)
       end.
Proof.
  rewrite catalogo_unfold. cbv zeta.
  assert (Hname : forall p,
             (if truthy (QueryDict_get GET "q")
              then icontains dbms (nombre p)
                     (match QueryDict_get GET "q" with
                      | Some q => q | None => EmptyString end)
              else true) = true
             <-> (forall q, QueryDict_get GET "q" = Some q -> q <> EmptyString ->
                            icontains dbms (nombre p) q = true)).
  { intros p. destruct (QueryDict_get GET "q") as [[|a q0]|]; cbn [truthy].
    - split; [intros _ q Hq Hne; inversion Hq; congruence | reflexivity].
    - split; [intros H q Hq _; inversion Hq; subst; exact H|].
      intros H. apply H; [reflexivity | discriminate].
    - split; [intros _ q Hq; discriminate | reflexivity]. }
  assert (Hdiseno : objects_first (tienda_disenopersonalizado t) = None
                    <-> has_add_permission t = true).
  { rewrite objects_first_none. unfold has_add_permission.
    destruct (tienda_disenopersonalizado t) as [|x l]; cbn [List.length].
    - split; reflexivity.
    - split; [discriminate|]. intros H. apply Z.eqb_eq in H. lia. }
  destruct (truthy (QueryDict_get GET "categoria")) eqn:Hc.
  - apply truthy_text in Hc. destruct Hc as (c & Hc & Hne). rewrite Hc.
    destruct (int_str c) as [pk|] eqn:Hpk.
    + destruct (out_of_range dbms pk) as [e|] eqn:Hrange.
      { eexists. split; [reflexivity|]. exists c. now rewrite Hpk. }
      eexists. split; [reflexivity|]. cbn [productos categorias diseno selected_categoria].
      split; [reflexivity|].
      split; [intros c' Hc' _; inversion Hc'; subst c'; now exists pk|].
      split; [discriminate|].
      split; [|split; [apply unordered_permutes | exact Hdiseno]].
      intros p.
      rewrite (perm_in_iff p (order_by_nombre_permutes dbms _)).
      rewrite filter_In, !andb_true_iff, Hname.
      split.
      * intros (Hin & (Hd & Hn) & Hcat). repeat split; try assumption.
        intros pk' Hpk'. inversion Hpk'; subst pk'.
        destruct (categoria p) as [c0|]; [|discriminate].
        apply Z.eqb_eq in Hcat. now subst.
      * intros (Hin & Hd & Hn & Hcat). repeat split; try assumption.
        rewrite (Hcat pk eq_refl). apply Z.eqb_refl.
    + eexists. split; [reflexivity|]. exists c. now rewrite Hpk.
  - eexists. split; [reflexivity|]. cbn [productos categorias diseno selected_categoria].
    split; [reflexivity|].
    split.
    { intros c Hc' Hne. exfalso.
      assert (truthy (QueryDict_get GET "categoria") = true)
        by (apply truthy_text; now exists c).
      congruence. }
    split; [reflexivity|].
    split; [|split; [apply unordered_permutes | exact Hdiseno]].
    intros p.
    rewrite (perm_in_iff p (order_by_nombre_permutes dbms _)).
    rewrite filter_In, !andb_true_iff, Hname.
    split.
    + intros (Hin & (Hd & Hn) & _). repeat split; try assumption. discriminate.
    + intros (Hin & Hd & Hn & _). repeat split; assumption.
Qed.

End CatalogueFacts.

Section CatalogueExamples.
Import PyText Py Models Views System Site.
Local Open Scope string_scope.
Local Open Scope Z_scope.

(** The catalogue of the small shop: a category that is no integer, a
    category beyond the keys of the database, and a search. *)
Lemma catalogo_on_the_shop :
  let t := {| store := Shop.tienda; tienda_categoria := [];
              tienda_disenopersonalizado := [] |} in
  catalogo plain_database [("categoria", "uno")] t = (inl ValueError, t)
  /\ catalogo plain_database [("categoria", "9223372036854775808")] t
     = (inl OverflowError, t)
  /\ exists ctx,
       catalogo plain_database [("q", "A")] t = (inr (Page "tienda/catalogo.html" ctx), t)
       /\ productos ctx = [Shop.producto_a].
Proof.
  cbv zeta. split; [vm_compute; reflexivity|].
  split; [vm_compute; reflexivity|].
  eexists. split; vm_compute; reflexivity.
Qed.

End CatalogueExamples.
(** ** The flag [disponible] and the operations of the shop *)

Section Simulation.
Import PyText Py Models Views System Site.
Local Open Scope string_scope.
Local Open Scope Z_scope.

Context {S : Type} (g : S -> S).

Lemma sim_ret {A} (R : A -> A -> Prop) (a1 a2 : A) :
  R a1 a2 -> sim g R (ret a1) (ret a2).
Proof. intros H s. cbn. now split. Qed.

Lemma sim_raise {A} (R : A -> A -> Prop) (e : Exception) :
  sim g R (raise e) (raise e).
Proof. intros s. cbn. now split. Qed.

Lemma sim_bind {A B} (R : A -> A -> Prop) (R' : B -> B -> Prop)
    (m1 m2 : M S A) (k1 k2 : A -> M S B) :
  sim g R m1 m2 ->
  (forall a1 a2, R a1 a2 -> sim g R' (k1 a1) (k2 a2)) ->
  sim g R' (bind m1 k1) (bind m2 k2).
Proof.
  intros Hm Hk s. unfold bind. specialize (Hm s).
  destruct (m1 s) as [[e1|a1] s1], (m2 (g s)) as [[e2|a2] s2]; try contradiction.
  - exact Hm.
  - destruct Hm as [HR ->]. exact (Hk a1 a2 HR s1).
Qed.

Lemma sim_lift_option {A} (e : Exception) (o : option A) :
  sim g eq (lift_option e o) (lift_option e o).
Proof. destruct o; [now apply sim_ret | apply sim_raise]. Qed.

Lemma sim_lift_sum {A} (r : Exception + A) :
  sim g eq (lift_sum r) (lift_sum r).
Proof. destruct r; [apply sim_raise | now apply sim_ret]. Qed.

Lemma sim_map_m {A B} (l : list A) (f1 f2 : A -> M S B) :
  (forall x, sim g eq (f1 x) (f2 x)) ->
  sim g eq (map_m l f1) (map_m l f2).
Proof.
  intros H. induction l as [|x l IH]; cbn [map_m]; [now apply sim_ret|].
  apply sim_bind with (R := eq); [apply H | intros y _ <-].
  apply sim_bind with (R := eq); [exact IH | intros ys _ <-].
  now apply sim_ret.
Qed.

Lemma sim_get_response (m1 m2 : M S HttpResponse) (s : S) :
  sim g eq m1 m2 ->
  get_response m2 (g s)
  = (fst (get_response m1 s), g (snd (get_response m1 s))).
Proof.
  intros H. specialize (H s). unfold get_response.
  destruct (m1 s) as [[e1|a1] s1], (m2 (g s)) as [[e2|a2] s2]; try contradiction;
    destruct H as [<- ->]; [destruct e1|]; reflexivity.
Qed.

End Simulation.

Section Availability.
Import PyText Py Models Views System Site.
Local Open Scope string_scope.
Local Open Scope Z_scope.

Variables (queryset : QuerySet) (b : bool).
Let f := update_row queryset b.
Let gd := updated queryset b.
Let gw := updated_world queryset b.

Lemma update_row_fields (p : Producto) :
  producto_id (f p) = producto_id p /\ nombre (f p) = nombre p
  /\ precio (f p) = precio p /\ stock (f p) = stock p /\ imagen (f p) = imagen p.
Proof. unfold f, update_row. destruct (queryset p); repeat split. Qed.

Lemma find_updated (d : DB) (pk : Z) :
  find_producto (gd d) pk = option_map f (find_producto d pk).
Proof.
  unfold gd, updated, find_producto. cbn [update_disponible bind get put ret snd
    with_producto tienda_producto].
  induction (tienda_producto d) as [|p l IH]; [reflexivity|].
  cbn [map find]. fold f.
  rewrite (proj1 (update_row_fields p)).
  destruct (producto_id p =? pk); [reflexivity | exact IH].
Qed.

Lemma updated_tables (d : DB) :
  auth_user (gd d) = auth_user d
  /\ tienda_pedido (gd d) = tienda_pedido d
  /\ tienda_detallepedido (gd d) = tienda_detallepedido d
  /\ tienda_producto (gd d) = map f (tienda_producto d).
Proof. repeat split. Qed.

Lemma sim_get_Producto (k : string) :
  sim gd (fun p1 p2 => p2 = f p1)
    (get_object_or_404_Producto k) (get_object_or_404_Producto k).
Proof.
  intros d. unfold get_object_or_404_Producto, bind, get.
  destruct (int_str k) as [pk|]; cbn [lift_option ret raise]; [|now split].
  rewrite find_updated.
  destruct (find_producto d pk) as [p|]; cbn [option_map lift_option ret raise];
    now split.
Qed.

Lemma sim_webhook (ext : Collaborators) (request : WebhookRequest) :
  sim gd eq (stripe_webhook ext request) (stripe_webhook ext request).
Proof.
  unfold stripe_webhook.
  destruct (construct_event ext _ _ _) as [[|]|event]; try now apply sim_ret.
  destruct (String.eqb _ _); [|now apply sim_ret].
  apply sim_bind with (R := eq); [apply sim_lift_option | intros user_id _ <-].
  apply sim_bind with (R := eq); [apply sim_lift_option | intros blob _ <-].
  apply sim_bind with (R := eq); [apply sim_lift_option | intros carrito _ <-].
  apply sim_raise.
Qed.

Lemma sim_lift_db {A} (R : A -> A -> Prop) (m1 m2 : M DB A) :
  sim gd R m1 m2 -> sim gw R (lift_db m1) (lift_db m2).
Proof.
  intros H w. specialize (H (db w)). unfold lift_db.
  change (db (gw w)) with (gd (db w)).
  destruct (m1 (db w)) as [[e1|a1] d1], (m2 (gd (db w))) as [[e2|a2] d2];
    try contradiction; destruct H as [H ->]; now split.
Qed.

Lemma sim_session_get : sim gw eq session_get_carrito session_get_carrito.
Proof. intros w. unfold session_get_carrito, bind, get. cbn. now split. Qed.

Lemma sim_session_set (c : Carrito) :
  sim gw eq (session_set_carrito c) (session_set_carrito c).
Proof. intros w. unfold session_set_carrito, bind, get, put. cbn. now split. Qed.

Lemma sim_messages_add (l : Level) (text : string) :
  sim gw eq (messages_add l text) (messages_add l text).
Proof. intros w. unfold messages_add, bind, get, put. cbn. now split. Qed.

Lemma sim_agregar (request : HttpRequest) :
  sim gw eq (agregar_al_carrito request) (agregar_al_carrito request).
Proof.
  unfold agregar_al_carrito, require_POST.
  destruct (String.eqb _ _); [|now apply sim_ret].
  apply sim_bind with (R := fun p1 p2 => p2 = f p1);
    [apply sim_lift_db, sim_get_Producto | intros p ? ->].
  apply sim_bind with (R := eq); [apply sim_session_get | intros carrito _ <-].
  destruct (update_row_fields p) as (_ & Hn & _ & Hs & _). rewrite Hs, Hn.
  destruct (stock p <=? 0); [now apply sim_ret|].
  destruct (dict_get carrito _) as [item|].
  - destruct (stock p >? item_cantidad item); [|now apply sim_ret].
    apply sim_bind with (R := eq); [apply sim_session_set | intros _ _ _].
    apply sim_bind with (R := eq); [apply sim_messages_add | intros _ _ _].
    now apply sim_ret.
  - apply sim_bind with (R := eq); [apply sim_session_set | intros _ _ _].
    apply sim_bind with (R := eq); [apply sim_messages_add | intros _ _ _].
    now apply sim_ret.
Qed.

Lemma sim_actualizar (request : HttpRequest) :
  sim gw eq (actualizar_carrito request) (actualizar_carrito request).
Proof.
  unfold actualizar_carrito, require_POST.
  destruct (String.eqb _ _); [|now apply sim_ret].
  apply sim_bind with (R := eq); [apply sim_lift_sum | intros cantidad _ <-].
  apply sim_bind with (R := eq); [apply sim_session_get | intros carrito _ <-].
  destruct (dict_mem carrito _); [|now apply sim_ret].
  apply sim_bind with (R := eq); [apply sim_session_set | intros _ _ _].
  now apply sim_ret.
Qed.

Lemma sim_crear_sesion (ext : Collaborators) (request : HttpRequest) :
  sim gw eq (crear_sesion_pago ext request) (crear_sesion_pago ext request).
Proof.
  unfold crear_sesion_pago, login_required.
  destruct (user request) as [uid|]; [|now apply sim_ret].
  apply sim_bind with (R := eq); [apply sim_session_get | intros carrito _ <-].
  destruct carrito as [|entry c].
  - apply sim_bind with (R := eq); [apply sim_messages_add | intros _ _ _].
    now apply sim_ret.
  - apply sim_bind with (R := eq).
    + apply sim_map_m. intros x.
      apply sim_bind with (R := fun p1 p2 => p2 = f p1);
        [apply sim_lift_db, sim_get_Producto | intros p ? ->].
      destruct (update_row_fields p) as (_ & Hn & Hp & _ & Hi).
      unfold imagen_url. rewrite Hi, Hn, Hp.
      apply sim_bind with (R := eq); [apply sim_lift_sum | intros url _ <-].
      now apply sim_ret.
    + intros items _ <-.
      destruct (Session_create ext _) as [e|cs]; [|now apply sim_ret].
      apply sim_bind with (R := eq); [apply sim_messages_add | intros _ _ _].
      now apply sim_ret.
Qed.

Lemma run_updated (ext : Collaborators) (op : Operation) (w : World) :
  run ext op (gw w) = (fst (run ext op w), gw (snd (run ext op w))).
Proof.
  destruct op as [r|r|r|r]; cbn [run].
  - apply sim_get_response, sim_agregar.
  - apply sim_get_response, sim_actualizar.
  - apply sim_get_response, sim_crear_sesion.
  - change (db (gw w)) with (gd (db w)).
    rewrite (sim_get_response gd _ _ (db w) (sim_webhook ext r)).
    destruct (get_response (stripe_webhook ext r) (db w)) as [response d'].
    reflexivity.
Qed.

End Availability.

Section AvailabilityTheorem.
Import PyText Py Models Views System Site.
Local Open Scope string_scope.
Local Open Scope Z_scope.

(** X14: no operation of the shop reads the flag [disponible] or writes it: a
    cart mutation, a checkout initiation or a notification gives the same
    answer whether the administrator has marked products as available or not
    available before it, and the world it leaves is the one it would have
    left, with the same products marked.  A product that the catalogue hides
    is added to the cart and sent to the payment gateway like any other. *)
Theorem disponible_not_enforced (ext : Collaborators) (queryset : QuerySet) (b : bool)
    (op : Operation) (w : World) :
  by_key queryset ->
  run ext op (updated_world queryset b w)
  = (fst (run ext op w), updated_world queryset b (snd (run ext op w))).
Proof. intros _. apply run_updated. Qed.

Lemma disponible_not_enforced_witness :
  let hide := fun p => producto_id p =? 1 in
  let add := Agregar (Shop.post None (SInt 1) SNone) in
  let w := Shop.mundo None Shop.tienda in
  status_code (fst (run (Shop.collaborators Shop.cs_ab Shop.gateway_up) add
                      (updated_world hide false w))) = 200.
Proof.
  intros hide add w.
  rewrite (disponible_not_enforced (Shop.collaborators Shop.cs_ab Shop.gateway_up)
             hide false add w).
  - reflexivity.
  - intros p p' Hid. unfold hide. now rewrite Hid.
Defined.

End AvailabilityTheorem.

(** ** The actions of the administrator and the catalogue *)

Section AdminActions.
Import PyText Py Models Views System Site.
Local Open Scope string_scope.
Local Open Scope Z_scope.

Lemma marcar_no_disponible_store (queryset : QuerySet) (d : DB) :
  snd (marcar_como_no_disponible queryset d) = updated queryset false d.
Proof. reflexivity. Qed.

Lemma marcar_disponible_store (queryset : QuerySet) (d : DB) :
  snd (marcar_como_disponible queryset d) = updated queryset true d.
Proof. reflexivity. Qed.

Lemma updated_rows (queryset : QuerySet) (b : bool) (d : DB) :
  tienda_producto (updated queryset b d) = map (update_row queryset b) (tienda_producto d).
Proof. reflexivity. Qed.

(** X15: after [marcar_como_no_disponible] the catalogue lists, for every query
    string, the products it listed before that are not among the selected
    ones, and no other; a request it refused is refused as before. *)
Theorem marcar_como_no_disponible_hides (dbms : Database) (queryset : QuerySet)
    (GET : QueryDict) (t : Tables) :
  let t' := with_store t (snd (marcar_como_no_disponible queryset (store t))) in
  match fst (catalogo dbms GET t), fst (catalogo dbms GET t') with
  | inr (Page _ ctx), inr (Page _ ctx') =>
      forall p, In p (productos ctx') <-> In p (productos ctx) /\ queryset p = false
  | inl e, inl e' => e = e'
  | _, _ => False
  end.
Proof.
  intros t'. subst t'. rewrite marcar_no_disponible_store.
  rewrite !catalogo_unfold. cbv zeta.
  cbn [with_store store tienda_categoria tienda_disenopersonalizado].
  rewrite updated_rows.
  assert (Hrows : forall keep : Producto -> bool,
             (forall p, keep (set_disponible p false) = keep p) ->
             forall p,
               In p (order_by_nombre dbms
                       (filter (fun p => disponible p && keep p)
                               (map (update_row queryset false)
                                    (tienda_producto (store t)))))
               <-> In p (order_by_nombre dbms
                           (filter (fun p => disponible p && keep p)
                                   (tienda_producto (store t))))
                   /\ queryset p = false).
  { intros keep Hkeep p.
    rewrite !(perm_in_iff p (order_by_nombre_permutes dbms _)).
    rewrite !filter_In, in_map_iff. split.
    - intros ((p0 & Hp0 & Hin) & Hd). unfold update_row in Hp0.
      destruct (queryset p0) eqn:Hq.
      + subst p. cbn [disponible set_disponible andb] in Hd. discriminate.
      + subst p0. repeat split; assumption.
    - intros ((Hin & Hd) & Hq). split; [|exact Hd].
      exists p. unfold update_row. rewrite Hq. now split. }
  destruct (truthy (QueryDict_get GET "categoria")).
  - destruct (int_str _) as [pk|]; cbn [fst]; [|reflexivity].
    destruct (out_of_range dbms pk); cbn [fst]; [reflexivity|].
    intros p.
    rewrite (filter_ext _ (fun p => disponible p
       && ((if truthy (QueryDict_get GET "q")
            then icontains dbms (nombre p)
                   match QueryDict_get GET "q" with Some q => q | None => EmptyString end
            else true)
           && match categoria p with Some c => c =? pk | None => false end)))
      by (intros x; now rewrite andb_assoc).
    rewrite (filter_ext (fun p => disponible p && _ && _)
       (fun p => disponible p
       && ((if truthy (QueryDict_get GET "q")
            then icontains dbms (nombre p)
                   match QueryDict_get GET "q" with Some q => q | None => EmptyString end
            else true)
           && match categoria p with Some c => c =? pk | None => false end)))
      by (intros x; now rewrite andb_assoc).
    apply (Hrows (fun p => (if truthy (QueryDict_get GET "q")
            then icontains dbms (nombre p)
                   match QueryDict_get GET "q" with Some q => q | None => EmptyString end
            else true)
           && match categoria p with Some c => c =? pk | None => false end)).
    reflexivity.
  - cbn [fst]. intros p.
    rewrite (filter_ext _ (fun p => disponible p
       && ((if truthy (QueryDict_get GET "q")
            then icontains dbms (nombre p)
                   match QueryDict_get GET "q" with Some q => q | None => EmptyString end
            else true) && true)))
      by (intros x; now rewrite andb_assoc).
    rewrite (filter_ext (fun p => disponible p && _ && _)
       (fun p => disponible p
       && ((if truthy (QueryDict_get GET "q")
            then icontains dbms (nombre p)
                   match QueryDict_get GET "q" with Some q => q | None => EmptyString end
            else true) && true)))
      by (intros x; now rewrite andb_assoc).
    apply (Hrows (fun p => (if truthy (QueryDict_get GET "q")
            then icontains dbms (nombre p)
                   match QueryDict_get GET "q" with Some q => q | None => EmptyString end
            else true) && true)).
    reflexivity.
Qed.

(** X16: marking as available the products that were marked as not available
    gives the store back, when the queryset selects by key and every product
    it selects was available. *)
Theorem marcar_como_disponible_restores (queryset : QuerySet) (d : DB) :
  by_key queryset ->
  Forall (fun p => queryset p = true -> disponible p = true) (tienda_producto d) ->
  snd (marcar_como_disponible queryset (snd (marcar_como_no_disponible queryset d))) = d.
Proof.
  intros Hkey Hall.
  rewrite marcar_no_disponible_store, marcar_disponible_store.
  destruct d as [us ps os ls]. cbn [tienda_producto] in Hall.
  unfold updated, update_disponible, bind, get, put, ret, with_producto.
  cbn [snd tienda_producto auth_user tienda_pedido tienda_detallepedido].
  f_equal. rewrite map_map.
  induction Hall as [|p l Hp _ IH]; [reflexivity|].
  cbn [map]. rewrite IH. f_equal.
  unfold update_row.
  destruct (queryset p) eqn:Hq.
  - rewrite (Hkey (set_disponible p false) p eq_refl), Hq.
    destruct p as [i n de pr st ca im di]. cbn in Hp |- *.
    unfold set_disponible. cbn. now rewrite (Hp eq_refl).
  - now rewrite Hq.
Qed.

Lemma marcar_como_disponible_restores_witness :
  snd (marcar_como_disponible (fun p => producto_id p =? 1)
         (snd (marcar_como_no_disponible (fun p => producto_id p =? 1) Shop.tienda)))
  = Shop.tienda.
Proof.
  apply marcar_como_disponible_restores.
  - intros p p' Hid. now rewrite Hid.
  - repeat constructor.
Defined.

End AdminActions.

(** ** The count of the cart, and an entry added and taken out again *)

Section CartCount.
Import PyText Py Models Views System CartLife.
Local Open Scope string_scope.
Local Open Scope Z_scope.

Lemma total_items_set (c : Carrito) (k : string) (v : ItemCarrito) :
  total_items (dict_set c k v)
  = total_items c + item_cantidad v
    - match dict_get c k with Some item => item_cantidad item | None => 0 end.
Proof.
  induction c as [|[k' v'] c IH]; cbn [dict_set dict_get total_items fold_right snd].
  - lia.
  - destruct (String.eqb k k'); cbn [total_items fold_right snd].
    + lia.
    + fold (total_items (dict_set c k v)). fold (total_items c). lia.
Qed.

Lemma dict_del_set_fresh {V} (c : list (string * V)) (k : string) (v : V) :
  dict_get c k = None -> dict_del (dict_set c k v) k = c.
Proof.
  induction c as [|[k' v'] c IH]; cbn [dict_get dict_set dict_del].
  - intros _. now rewrite String.eqb_refl.
  - destruct (String.eqb k k') eqn:E; [discriminate|].
    intros H. cbn [dict_del]. rewrite E. now rewrite IH.
Qed.

(** X18: when [agregar_al_carrito] answers 200, the body of the answer carries
    under [total_items] the sum of the quantities of the cart as it was, plus
    1, which is the sum of the quantities of the cart it leaves. *)
Theorem agregar_counts (request : HttpRequest) (w : World)
    (body : list (string * value)) :
  fst (get_response (agregar_al_carrito request) w) = JsonResponse body 200 ->
  dict_get body "total_items" = Some (PyInt (total_items (cart_of w) + 1))
  /\ total_items (cart_of (snd (get_response (agregar_al_carrito request) w)))
     = total_items (cart_of w) + 1.
Proof.
  intros Hbody.
  destruct (String.eqb (method request) "POST") eqn:Hm.
  2:{ unfold get_response, agregar_al_carrito, require_POST in Hbody.
      rewrite Hm in Hbody. discriminate. }
  apply String.eqb_eq in Hm.
  pose proof (agregar_cases request w) as Hcases. cbv zeta in Hcases.
  destruct Hcases as [[Hne _]|(p & n & Hk & Hp & _ & _ & _ & _)].
  { rewrite Hbody in Hne. now contradiction Hne. }
  unfold get_response in *.
  rewrite (agregar_eval request w p Hm Hk Hp) in *. cbv zeta in *.
  destruct (stock p <=? 0); [discriminate|].
  destruct (dict_get (cart_of w) (str (data_get request "producto_id")))
    as [item|] eqn:Hitem.
  - destruct (stock p >? item_cantidad item); [|discriminate].
    cbn [fst snd] in *. inversion Hbody; subst body.
    cbn [added cart_of session session_carrito].
    rewrite total_items_set, Hitem. cbn [item_cantidad dict_get String.eqb].
    split; [|lia]. cbn. do 2 f_equal. lia.
  - cbn [fst snd] in *. inversion Hbody; subst body.
    cbn [added cart_of session session_carrito].
    rewrite total_items_set, Hitem. cbn [item_cantidad].
    split; [|lia]. cbn. do 2 f_equal. lia.
Qed.

(** X19: a product that is not in the cart, added with [agregar_al_carrito] and
    then set to a quantity of 0 or less with [actualizar_carrito], leaves the
    cart as it was, entry for entry, and the database as it was. *)
Theorem add_then_remove (ext : Collaborators) (add remove : HttpRequest) (w : World)
    (q : Z) :
  status_code (fst (get_response (agregar_al_carrito add) w)) = 200 ->
  dict_get (cart_of w) (str (data_get add "producto_id")) = None ->
  method remove = "POST" ->
  str (data_get remove "producto_id") = str (data_get add "producto_id") ->
  int (data_get remove "cantidad") = inr q ->
  q <= 0 ->
  let w' := run_all ext [Agregar add; Actualizar remove] w in
  cart_of w' = cart_of w /\ db w' = db w.
Proof.
  intros Hok Hnew Hm Hsame Hq Hle w'. subst w'.
  unfold run_all. cbn [fold_left run].
  pose proof (agregar_cases add w) as Hcases. cbv zeta in Hcases.
  destruct Hcases as [[Hne _]|(p & n & _ & _ & _ & _ & _ & ->)]; [contradiction|].
  set (c' := dict_set (cart_of w) (str (data_get add "producto_id"))
               {| item_cantidad := n |}).
  assert (Hc : cart_of (added w p c') = c') by reflexivity.
  assert (Hmem : dict_mem c' (str (data_get add "producto_id")) = true).
  { unfold dict_mem, c'. now rewrite dict_get_set_same. }
  assert (Hgt : (q >? 0) = false) by (rewrite Z.gtb_ltb; apply Z.ltb_ge; lia).
  unfold get_response.
  rewrite (actualizar_eval remove (added w p c') q Hm Hq). cbv zeta.
  rewrite Hsame, Hc, Hmem, Hgt. cbn [snd cart_of session session_carrito db added].
  split; [|reflexivity].
  apply dict_del_set_fresh. exact Hnew.
Qed.

End CartCount.

Section CartCountExamples.
Import PyText Py Models Views System CartLife.
Local Open Scope string_scope.
Local Open Scope Z_scope.

Lemma agregar_counts_witness :
  dict_get [("mensaje", PyStr ("A a" ++ n_tilde ++ "adido al carrito."));
            ("total_items", PyInt 4)] "total_items"
  = Some (PyInt (total_items Shop.carrito_ab + 1)).
Proof.
  exact (proj1 (agregar_counts (Shop.post None (SInt 1) SNone)
                  (Shop.mundo (Some Shop.carrito_ab) Shop.tienda) _ eq_refl)).
Defined.

Lemma add_then_remove_witness :
  cart_of (run_all (Shop.collaborators Shop.cs_ab Shop.gateway_up)
             [Agregar (Shop.post None (SInt 2) SNone);
              Actualizar (Shop.post None (SStr "2") (SInt 0))]
             (Shop.mundo (Some [("1", Shop.item 2)]) Shop.tienda))
  = [("1", Shop.item 2)].
Proof.
  refine (proj1 (add_then_remove (Shop.collaborators Shop.cs_ab Shop.gateway_up)
                   (Shop.post None (SInt 2) SNone)
                   (Shop.post None (SStr "2") (SInt 0))
                   (Shop.mundo (Some [("1", Shop.item 2)]) Shop.tienda) 0
                   eq_refl eq_refl eq_refl eq_refl eq_refl _)).
  apply Z.le_refl.
Defined.

End CartCountExamples.

(** ** The theorems on the small shop *)

Section ShopExamples.
Import PyText Py Models Views System CartLife Checkout Site.
Import Shop.
Local Open Scope string_scope.
Local Open Scope Z_scope.

Lemma cart_ok_invariant_witness :
  cart_ok (run_all (collaborators cs_ab gateway_up)
             [Agregar (post None (SInt 1) SNone); Webhook notification]
             (mundo None tienda)).
Proof.
  apply cart_ok_invariant. split; constructor.
Defined.

Lemma cart_request_failed_changes_nothing_witness :
  snd (get_response (agregar_al_carrito (post None (SInt 9) SNone))
         (mundo (Some carrito_ab) tienda))
  = mundo (Some carrito_ab) tienda.
Proof.
  apply (proj1 (cart_request_failed_changes_nothing (post None (SInt 9) SNone)
                  (mundo (Some carrito_ab) tienda))).
  intros H. vm_compute in H. discriminate.
Defined.

Lemma webhook_answers_witness :
  let ext := {| construct_event := fun _ _ _ => inl SignatureVerificationError;
                STRIPE_WEBHOOK_SECRET := "whsec_test";
                storage_url := fun name => "/media/" ++ name;
                Session_create := gateway_up;
                build_absolute_uri := fun path => path |} in
  get_response (stripe_webhook ext notification) tienda = (Response 400, tienda).
Proof.
  intros ext.
  exact (proj1 (webhook_answers ext notification tienda)
           SignatureVerificationError eq_refl).
Defined.

Lemma checkout_redirects_to_gateway_witness :
  get_response (crear_sesion_pago (collaborators cs_ab gateway_up)
                  (post (Some 7) SNone SNone))
    (mundo (Some carrito_ab) tienda)
  = (Redirect "https://checkout.stripe.com/pay/cs_test_1" 302,
     mundo (Some carrito_ab) tienda).
Proof.
  refine (checkout_redirects_to_gateway (collaborators cs_ab gateway_up)
            (post (Some 7) SNone SNone) 7 (mundo (Some carrito_ab) tienda)
            [line_item (collaborators cs_ab gateway_up) producto_a ("1", item 2);
             line_item (collaborators cs_ab gateway_up) producto_b ("2", item 1)]
            cs_ab eq_refl _ _ eq_refl).
  - discriminate.
  - constructor; [|constructor; [|constructor]].
    + exists producto_a. repeat split. discriminate.
    + exists producto_b. repeat split. discriminate.
Defined.

Lemma checkout_faults_witness :
  get_response (crear_sesion_pago (collaborators cs_ab gateway_up)
                  (post (Some 7) SNone SNone))
    (mundo (Some [("1", item 2); ("9", item 1)]) tienda)
  = (Response 404, mundo (Some [("1", item 2); ("9", item 1)]) tienda).
Proof.
  refine (checkout_faults (collaborators cs_ab gateway_up)
            (post (Some 7) SNone SNone) 7
            (mundo (Some [("1", item 2); ("9", item 1)]) tienda)
            [("1", item 2)] [] ("9", item 1) eq_refl eq_refl _ _).
  - constructor; [|constructor].
    exists producto_a. repeat split. discriminate.
  - intros (p & Hk & Hp & _). cbn in Hk. inversion Hk as [Hid].
    rewrite <- Hid in Hp. vm_compute in Hp. discriminate.
Defined.

End ShopExamples.

